(** * CADhelp: the orthographic-projection engine of [cadapp.py]

    A shallow embedding of the drawing core of [cadapp.py] (layout and
    scaling, the info calculator, the regular-polygon builder and the four
    [draw_*] routines) together with the properties established about it.

    Modelling conventions.
    - Python floats are read as mathematical reals ([R]): [math.cos],
      [math.sin], [math.sqrt], [math.pi] are [cos], [sin], [sqrt], [PI].
      Rounding of binary64 arithmetic is therefore not part of the model.
    - Integer layout constants stay in [Z]; [//] is [Z.div].
    - A Python exception is a [Raise] in the [result] monad; a division by
      a run-time value goes through [py_div], which raises
      [ZeroDivisionError] on a zero divisor exactly as Python does.
    - The [ImageDraw] object is write-only: each routine returns the
      ordered list of drawing commands it issues on it.  Fill colour is
      always [WHITE] and the font is the cached global, so neither is
      recorded.  [draw.rectangle] and [draw.ellipse] raise [ValueError] on
      a bounding box with [x1 < x0] or [y1 < y0]: where the box is computed
      from the request the call is [draw_rectangle] or [draw_ellipse];
      the marker boxes [c - k, c + k] of points and line ends and the
      constant frame of the info panel are always accepted.
    - The [params] dict is a record with one optional field per key; the
      numeric entries are floats, [None] or missing.  The text parser and
      the widgets of the Streamlit page are not part of the embedding; the
      handler of its button is [generate].
    - The geometry engine of [cadtest.py] and the projection routines of
      [cadtest3.py] are embedded in the modules [Cadtest] and [Cadtest3]. *)

From Stdlib Require Import Reals Lra Lia ZArith List String Ascii Bool.
Import ListNotations.
Open Scope R_scope.

(** ** Python values and exceptions *)

Inductive exn : Type :=
| TypeError
| ValueError
| ZeroDivisionError
| IndexError.

Inductive result (A : Type) : Type :=
| Ok (a : A)
| Raise (e : exn).

Arguments Ok {A} a.
Arguments Raise {A} e.

Definition bind {A B : Type} (c : result A) (k : A -> result B) : result B :=
  match c with
  | Ok a => k a
  | Raise e => Raise e
  end.

Notation "x <- c ;; k" := (bind c (fun x => k))
  (at level 61, c at next level, right associativity).

(** [a / b] on floats. *)
Definition py_div (a b : R) : result R :=
  if Req_dec_T b 0 then Raise ZeroDivisionError else Ok (a / b).

(** [math.radians]. *)
Definition radians (deg : R) : R := deg * (PI / 180).

(** [max(x, y, ...)] and [min(x, y)] on floats. *)
Definition py_max (x : R) (xs : list R) : R := fold_left Rmax xs x.
Definition py_min (x y : R) : R := Rmin x y.

(** [int(x)] on a float: truncation towards zero. *)
Definition py_int (x : R) : Z :=
  if Rle_dec 0 x then Int_part x else (- Int_part (- x))%Z.

(** [range(n)]. *)
Definition range (n : Z) : list Z := map Z.of_nat (seq 0 (Z.to_nat n)).

(** An entry of the [params] dict that holds a number: the key may be
    missing, or bound to [None] (the text parser stores [None] for a line
    whose length or angle it did not find), or bound to a float. *)
Inductive attr : Type :=
| Absent
| PyNone
| Num (r : R).

(** [params.get(k)] and [params.get(k, d)]; the Python value obtained is
    [None] or a float. *)
Definition get (a : attr) : option R :=
  match a with
  | Absent | PyNone => None
  | Num r => Some r
  end.

Definition get_default (a : attr) (d : R) : option R :=
  match a with
  | Absent => Some d
  | PyNone => None
  | Num r => Some r
  end.

(** Truthiness of [None] / a float, and [v or d]. *)
Definition truthy (v : option R) : bool :=
  match v with
  | None => false
  | Some r => if Req_dec_T r 0 then false else true
  end.

Definition py_or (v : option R) (d : option R) : option R :=
  if truthy v then v else d.

(** [float(v)], and more generally any arithmetic use of [v]: [None]
    raises [TypeError]. *)
Definition py_float (v : option R) : result R :=
  match v with
  | Some r => Ok r
  | None => Raise TypeError
  end.

(** ** Config / constants *)

Definition CANVAS_W : Z := 1400.
Definition CANVAS_H : Z := 900.
Definition MARGIN : Z := 36.
Definition XY_Y : Z := (CANVAS_H / 2)%Z.

Definition LINE_HP : Z := 4.
Definition LINE_VP : Z := 3.
Definition LINE_CONST : Z := 1.

Definition box : Type := (Z * Z * Z * Z)%type.

Definition FRONT_BOX : box :=
  (MARGIN, MARGIN, CANVAS_W / 2 - MARGIN, XY_Y - 20)%Z.
Definition TOP_BOX : box :=
  (MARGIN, XY_Y + 20, CANVAS_W / 2 - MARGIN, CANVAS_H - MARGIN)%Z.
Definition INFO_BOX : box :=
  (CANVAS_W / 2 + 10, MARGIN, CANVAS_W - MARGIN, CANVAS_H - MARGIN)%Z.

Definition box_left (b : box) : Z := let '(l, _, _, _) := b in l.
Definition box_top (b : box) : Z := let '(_, t, _, _) := b in t.
Definition box_right (b : box) : Z := let '(_, _, r, _) := b in r.
Definition box_bottom (b : box) : Z := let '(_, _, _, bt) := b in bt.

(** ** Layout / scaler *)

(** The usable width and height of a box: [w] and [h] of
    [fit_scale_for_box], the box sides less a 20 pixel padding. *)
Definition usable_w (b : box) : Z := (box_right b - box_left b - 20)%Z.
Definition usable_h (b : box) : Z := (box_bottom b - box_top b - 20)%Z.

Definition fit_scale_for_box (max_mm : R) (b : box) : result R :=
  let w := usable_w b in
  let h := usable_h b in
  if Req_dec_T max_mm 0 then Ok 1
  else
    sx <- py_div (IZR w) max_mm ;;
    sy <- py_div (IZR h) max_mm ;;
    Ok (py_min sx sy).

Definition pt : Type := (R * R)%type.

Definition transform_to_box_coords (x_mm y_mm : R) (b : box) (scale : R) : pt :=
  let cx := IZR (box_left b + box_right b) / 2 in
  let cy := IZR (box_top b + box_bottom b) / 2 in
  let px := cx + x_mm * scale in
  let py := cy - y_mm * scale in
  (px, py).

(** ** Info calculator *)

Definition apparent_length (true_len angle_deg : option R) : option R :=
  match true_len, angle_deg with
  | Some l, Some a => Some (Rabs (l * cos (radians a)))
  | _, _ => None
  end.

(** [true_from_apparent]: the guard [c == 0] compares the computed cosine
    with zero.  Over the reals it holds exactly at the odd multiples of 90
    degrees; in binary64 [math.radians] never returns an exact zero of the
    cosine, so the guard is not taken there.  The two readings agree at
    every angle with [cos (radians a) <> 0], the domain on which the round
    trip is stated below. *)
Definition true_from_apparent (apparent angle_deg : option R)
  : result (option R) :=
  match apparent, angle_deg with
  | Some ap, Some a =>
      if Req_dec_T (cos (radians a)) 0 then Ok None
      else r <- py_div ap (cos (radians a)) ;; Ok (Some r)
  | _, _ => Ok None
  end.

(** ** Drawing commands *)

(** A formatted message: literal text interleaved with formatted numbers
    ([{x}], [{x:.2f}], [{x:.1f}] of an f-string). *)
Inductive piece : Type :=
| Lit (s : string)
| Repr (x : R)
| ReprZ (n : Z)
| Fix2 (x : R)
| Fix1 (x : R).

Definition text : Type := list piece.

(** One call on the [ImageDraw] object.  [Line pts w] is
    [draw.line(pts, width=w)]; [Ellipse] and [Rectangle] carry their
    bounding box [x0 y0 x1 y1]; [Polygon] is [draw.polygon(pts, outline)],
    [Text] is [draw.text(pos, msg)]. *)
Inductive cmd : Type :=
| Line (pts : list pt) (width : Z)
| Ellipse (x0 y0 x1 y1 : R) (width : Z)
| Rectangle (x0 y0 x1 y1 : R) (width : Z)
| Polygon (pts : list pt)
| Text (pos : pt) (msg : text).

(** [draw.rectangle([x0, y0, x1, y1], width=w)] and [draw.ellipse] check
    their bounding box before drawing: a box whose second corner lies left
    of or above the first raises [ValueError] ("x1 must be greater than or
    equal to x0", "y1 must be greater than or equal to y0").  [draw.line],
    [draw.polygon] and [draw.text] take any coordinates. *)
Definition draw_rectangle (x0 y0 x1 y1 : R) (w : Z) : result cmd :=
  if Rlt_dec x1 x0 then Raise ValueError
  else if Rlt_dec y1 y0 then Raise ValueError
  else Ok (Rectangle x0 y0 x1 y1 w).

Definition draw_ellipse (x0 y0 x1 y1 : R) (w : Z) : result cmd :=
  if Rlt_dec x1 x0 then Raise ValueError
  else if Rlt_dec y1 y0 then Raise ValueError
  else Ok (Ellipse x0 y0 x1 y1 w).

(** The loop of [draw_info_panel]: one [draw.text] per line, 18 pixels
    apart. *)
Fixpoint info_lines (x y : R) (lines : list text) : list cmd :=
  match lines with
  | [] => []
  | l :: rest => Text (x, y) l :: info_lines x (y + 18) rest
  end.

(** [draw_info_panel(draw, text)].  The message is passed already split
    at its newlines (what [text.splitlines()] returns: formatted numbers
    contain no newline).  The frame is the constant [INFO_BOX], which
    [draw.rectangle] accepts ([info_panel_frame_accepted]). *)
Definition draw_info_panel (lines : list text) : list cmd :=
  let left := box_left INFO_BOX in
  let top := box_top INFO_BOX in
  let right := box_right INFO_BOX in
  let bottom := box_bottom INFO_BOX in
  Rectangle (IZR left) (IZR top) (IZR right) (IZR bottom) 1
  :: info_lines (IZR (left + 8)) (IZR (top + 8)) lines.

(** ** Request parameters *)

(** The [params] dict, one field per key the drawing routines read. *)
Record params : Type := mkParams {
  infront : attr;
  above : attr;
  true_length : attr;
  angle_hp : attr;
  angle_vp : attr;
  shape : option string;
  size : attr;
  sizes : option (list R);
  surface_angle : attr;
  edge_angle_to_VP : attr;
  solid_type : option string
}.

(** The empty dict. *)
Definition no_params : params :=
  mkParams Absent Absent Absent Absent Absent None Absent None Absent Absent
           None.

(** ** Point *)

Definition draw_point (p : params) (label : string) : result (list cmd) :=
  infront <- py_float (get_default (infront p) 30) ;;
  above <- py_float (get_default (above p) 30) ;;
  let max_mm := py_max infront [above; 100] in
  scale <- fit_scale_for_box (max_mm * 2) FRONT_BOX ;;
  let '(fx, fz) := transform_to_box_coords 0 above FRONT_BOX scale in
  let '(tx, ty) := transform_to_box_coords 0 infront TOP_BOX scale in
  Ok [ Ellipse (fx - 6) (fz - 6) (fx + 6) (fz + 6) LINE_HP;
       Ellipse (tx - 5) (ty - 5) (tx + 5) (ty + 5) LINE_VP;
       Line [(fx, fz); (tx, ty)] LINE_CONST;
       Text (fx + 10, fz - 10) [Lit (label ++ "''")];
       Text (tx + 10, ty - 10) [Lit (label ++ "'")] ].

(** ** Line *)

(** [v or d] where [d] is a float: the result is a float. *)
Definition py_or_num (v : option R) (d : R) : R :=
  match py_or v (Some d) with
  | Some r => r
  | None => d
  end.

Definition degrees (rad : R) : R := rad * (180 / PI).

(** The apparent inclination of a projected segment:
    [90.0 if dx == 0 else degrees(atan2(abs(dy), abs(dx)))].  With a
    positive second argument [atan2(y, x)] is [atan (y / x)]. *)
Definition apparent_angle (dx dy : R) : R :=
  if Req_dec_T dx 0 then 90
  else degrees (atan (Rabs dy / Rabs dx)).

(** A vertex marker of half-size [r]. *)
Definition marker (c : pt) (r : R) (w : Z) : cmd :=
  Ellipse (fst c - r) (snd c - r) (fst c + r) (snd c + r) w.

Definition draw_line (p : params) : result (list cmd) :=
  let L := py_or_num (get_default (true_length p) 80) 80 in
  let alpha := py_or_num (get_default (angle_hp p) 30) 30 in
  let beta := py_or_num (get_default (angle_vp p) 45) 45 in
  top_ap <- py_float (apparent_length (Some L) (Some alpha)) ;;
  front_ap <- py_float (apparent_length (Some L) (Some beta)) ;;
  let plan_angle := 25 in
  let dz := L * sin (radians alpha) in
  let plan_len := L * cos (radians alpha) in
  let dx := plan_len * cos (radians plan_angle) in
  let dy := plan_len * sin (radians plan_angle) in
  let Ax := - L * (1 / 10) in
  let Ay := 0 in
  let Az := 0 in
  let Bx := Ax + dx in
  let By := Ay + dy in
  let Bz := Az + dz in
  let max_mm :=
    py_max (Rabs Ax) [Rabs Bx; Rabs Ay; Rabs By; Rabs Az; Rabs Bz; L; 150] in
  scale <- fit_scale_for_box (max_mm * (22 / 10)) FRONT_BOX ;;
  let A_front := transform_to_box_coords Ax Az FRONT_BOX scale in
  let B_front := transform_to_box_coords Bx Bz FRONT_BOX scale in
  let A_top := transform_to_box_coords Ax Ay TOP_BOX scale in
  let B_top := transform_to_box_coords Bx By TOP_BOX scale in
  let dx_front := fst B_front - fst A_front in
  let dy_front := snd A_front - snd B_front in
  let theta_front := apparent_angle dx_front dy_front in
  let dx_top := fst B_top - fst A_top in
  let dy_top := snd A_top - snd B_top in
  let theta_top := apparent_angle dx_top dy_top in
  let info_lines :=
    [ [Lit "True length L = "; Fix2 L; Lit " mm"];
      [Lit "Apparent (top) = "; Fix2 top_ap; Lit " mm (L*cos α), α=";
       Repr alpha; Lit "°"];
      [Lit "Apparent (front) = "; Fix2 front_ap; Lit " mm (L*cos β), β=";
       Repr beta; Lit "°"];
      [Lit "Apparent angle in front view (with X) = "; Fix1 theta_front;
       Lit "°"];
      [Lit "Apparent angle in top view (with X) = "; Fix1 theta_top;
       Lit "°"] ] in
  Ok ([ Line [A_front; B_front] LINE_HP;
        marker A_front 5 LINE_HP;
        marker B_front 5 LINE_HP;
        Line [A_top; B_top] LINE_VP;
        marker A_top 4 LINE_VP;
        marker B_top 4 LINE_VP;
        Line [A_front; A_top] LINE_CONST;
        Line [B_front; B_top] LINE_CONST;
        Text (fst A_front - 18, snd A_front - 26) [Lit "A''"];
        Text (fst B_front - 18, snd B_front - 26) [Lit "B''"];
        Text (fst A_top - 18, snd A_top + 8) [Lit "A'"];
        Text (fst B_top - 18, snd B_top + 8) [Lit "B'"] ]
      ++ draw_info_panel info_lines).

(** ** Regular polygons *)

(** [l[i]], with Python's negative indices and [IndexError]. *)
Definition index {A : Type} (l : list A) (i : Z) : result A :=
  let j := if (i <? 0)%Z then (Z.of_nat (List.length l) + i)%Z else i in
  if (j <? 0)%Z then Raise IndexError
  else match nth_error l (Z.to_nat j) with
       | Some a => Ok a
       | None => Raise IndexError
       end.

(** A loop that collects one result per element and stops at the first
    exception. *)
Fixpoint mapM {A B : Type} (f : A -> result B) (l : list A)
  : result (list B) :=
  match l with
  | [] => Ok []
  | a :: rest => b <- f a ;; bs <- mapM f rest ;; Ok (b :: bs)
  end.

(** [regular_polygon_vertices(n, side)]; [n] is an [int] at every call
    site, so [int(n)] is the identity.  After the clamp [n >= 3], hence
    the two divisions by [n] cannot raise; the division by
    [2*sin(pi/n)] is kept fallible. *)
Definition regular_polygon_vertices (n : Z) (side : R) : result (list pt) :=
  let n := if (n <? 3)%Z then 3%Z else n in
  let s := side in
  R <- py_div s (2 * sin (PI / IZR n)) ;;
  Ok (map (fun i : Z =>
             let ang := - PI / 2 + 2 * PI * IZR i / IZR n in
             let x := R * cos ang in
             let y := R * sin ang in
             (x, y))
          (range n)).

(** ** Lamina *)

(** [((box[0]+box[2])//2, (box[1]+box[3])//2)]. *)
Definition center_of (b : box) : Z * Z :=
  (((box_left b + box_right b) / 2)%Z, ((box_top b + box_bottom b) / 2)%Z).

(** [params.get('sizes') and params.get('sizes')[0]]: a missing key gives
    [None] and an empty list gives the list itself; both are falsy and
    not numbers, and both read [None] here. *)
Definition first_of_sizes (p : params) : option R :=
  match sizes p with
  | Some (x :: _) => Some x
  | _ => None
  end.

(** The body of the top-view loops: rotate a plan point by [theta] about
    the origin and place it around [c] at [scale]. *)
Definition place_rotated (theta : R) (c : Z * Z) (scale : R) (q : pt) : pt :=
  let '(px, py) := q in
  let rx := px * cos theta - py * sin theta in
  let ry := px * sin theta + py * cos theta in
  (IZR (fst c) + rx * scale, IZR (snd c) + ry * scale).

(** [for i in range(n): draw.line([pts_f[i], pts_t[i]], width=LINE_CONST)]. *)
Definition projectors (pts_f pts_t : list pt) (n : Z) : result (list cmd) :=
  mapM (fun i => a <- index pts_f i ;;
                 b <- index pts_t i ;;
                 Ok (Line [a; b] LINE_CONST))
       (range n).

(** [pts + [pts[0]]]. *)
Definition closed (pts : list pt) : result (list pt) :=
  p0 <- index pts 0 ;; Ok (pts ++ [p0]).

Definition upper (c : ascii) : ascii :=
  let n := nat_of_ascii c in
  if (97 <=? n)%nat && (n <=? 122)%nat then ascii_of_nat (n - 32) else c.

Definition lower (c : ascii) : ascii :=
  let n := nat_of_ascii c in
  if (65 <=? n)%nat && (n <=? 90)%nat then ascii_of_nat (n + 32) else c.

Fixpoint lower_all (s : string) : string :=
  match s with
  | EmptyString => EmptyString
  | String c rest => String (lower c) (lower_all rest)
  end.

(** [str.capitalize] on ASCII text. *)
Definition capitalize (s : string) : string :=
  match s with
  | EmptyString => EmptyString
  | String c rest => String (upper c) (lower_all rest)
  end.

Definition draw_lamina (p : params) : result (list cmd) :=
  let shape :=
    match shape p with Some sh => sh | None => "triangle"%string end in
  let sizes := py_or (py_or (get (size p)) (first_of_sizes p)) (Some 30) in
  let surface_angle := get_default (surface_angle p) 60 in
  let edge_angle := get_default (edge_angle_to_VP p) 45 in
  s <- py_float sizes ;;
  let max_mm := py_max s [100] in
  scale <- fit_scale_for_box (max_mm * (22 / 10)) FRONT_BOX ;;
  let center_f := center_of FRONT_BOX in
  let center_t := center_of TOP_BOX in
  let cfx := IZR (fst center_f) in
  let cfy := IZR (snd center_f) in
  let ctx := IZR (fst center_t) in
  let cty := IZR (snd center_t) in
  if (shape =? "triangle")%string then
    let side := s in
    let h := sqrt 3 / 2 * side in
    sa <- py_float surface_angle ;;
    let h_f := h * cos (radians sa) in
    let pts_f := [ (cfx, cfy - h_f / 2);
                   (cfx - side / 2 * scale, cfy + h_f / 2);
                   (cfx + side / 2 * scale, cfy + h_f / 2) ] in
    polygon_pts <- regular_polygon_vertices 3 side ;;
    ea <- py_float edge_angle ;;
    let theta := radians ea in
    let pts_t := map (place_rotated theta center_t scale) polygon_pts in
    f0 <- index pts_f 0 ;; f1 <- index pts_f 1 ;; f2 <- index pts_f 2 ;;
    t0 <- index pts_t 0 ;; t1 <- index pts_t 1 ;; t2 <- index pts_t 2 ;;
    proj <- projectors pts_f pts_t 3 ;;
    Ok ([ Line [f0; f1; f2; f0] LINE_HP;
          Line [t0; t1; t2; t0] LINE_VP ]
        ++ proj
        ++ draw_info_panel
             [[Lit "Triangle side="; Repr side; Lit " mm, surface angle=";
               Repr sa; Lit "° to HP, edge rotated "; Repr ea;
               Lit "° to VP"]])
  else if (shape =? "square")%string || (shape =? "rectangle")%string then
    (* [sizes] is a float here, so the [isinstance(sizes, (list,tuple))]
       test fails *)
    let w := s in
    let h := if (shape =? "rectangle")%string then s * (3 / 2) else s in
    sa <- py_float surface_angle ;;
    let h_f := h * cos (radians sa) in
    let leftf := cfx - (w / 2) * scale in
    let rightf := cfx + (w / 2) * scale in
    let topf := cfy - h_f / 2 in
    let botf := cfy + h_f / 2 in
    front <- draw_rectangle leftf topf rightf botf LINE_HP ;;
    ea <- py_float edge_angle ;;
    let theta := radians ea in
    let corners := [ (- w / 2, - h / 2); (w / 2, - h / 2);
                     (w / 2, h / 2); (- w / 2, h / 2) ] in
    let pts_t := map (place_rotated theta center_t scale) corners in
    t0 <- index pts_t 0 ;; t1 <- index pts_t 1 ;;
    t2 <- index pts_t 2 ;; t3 <- index pts_t 3 ;;
    let front_pts := [ (leftf, topf); (rightf, topf);
                       (rightf, botf); (leftf, botf) ] in
    proj <- projectors front_pts pts_t 4 ;;
    Ok ([ front; Line [t0; t1; t2; t3; t0] LINE_VP ]
        ++ proj
        ++ draw_info_panel
             [[Lit "Rectangle "; Repr w; Lit " x "; Repr h;
               Lit " mm, surface angle="; Repr sa; Lit "°"]])
  else if (shape =? "pentagon")%string || (shape =? "hexagon")%string
          || (shape =? "polygon")%string then
    let n := if (shape =? "hexagon")%string then 6%Z
             else if (shape =? "pentagon")%string then 5%Z else 6%Z in
    polygon_pts <- regular_polygon_vertices n s ;;
    ea <- py_float edge_angle ;;
    let theta := radians ea in
    (* the loop body runs at least once: a [None] angle raises there *)
    sa <- py_float surface_angle ;;
    let pts_f :=
      map (fun q : pt =>
             let '(px, py) := q in
             (cfx + px * scale, cfy + py * cos (radians sa) * scale))
          polygon_pts in
    let pts_t := map (place_rotated theta center_t scale) polygon_pts in
    cf <- closed pts_f ;;
    ct <- closed pts_t ;;
    proj <- projectors pts_f pts_t (Z.of_nat (List.length pts_f)) ;;
    Ok ([ Line cf LINE_HP; Line ct LINE_VP ]
        ++ proj
        ++ draw_info_panel
             [[Lit (capitalize shape); Lit " side="; Repr s;
               Lit " mm, surface angle="; Repr sa; Lit "°"]])
  else if (shape =? "circle")%string then
    let r := s / 2 in
    sa <- py_float surface_angle ;;
    let leftf := cfx - r * scale in
    let rightf := cfx + r * scale in
    let topf := cfy - r * cos (radians sa) * scale in
    let botf := cfy + r * cos (radians sa) * scale in
    front <- draw_ellipse leftf topf rightf botf LINE_HP ;;
    let leftt := ctx - r * scale in
    let rightt := ctx + r * scale in
    let topt := cty - r * scale in
    let bott := cty + r * scale in
    top <- draw_ellipse leftt topt rightt bott LINE_VP ;;
    Ok ([ front; top; Line [(cfx, cfy); (ctx, cty)] LINE_CONST ]
        ++ draw_info_panel
             [[Lit "Circle diameter="; Repr s; Lit " mm, surface angle=";
               Repr sa; Lit "°"]])
  else
    Ok (draw_info_panel [[Lit "Shape not recognized for lamina."]]).

(** ** Solids *)

(** [max(xs)] and [min(xs)] of a list: [ValueError] on an empty one. *)
Definition max_of (xs : list R) : result R :=
  match xs with
  | [] => Raise ValueError
  | x :: rest => Ok (py_max x rest)
  end.

Definition min_of (xs : list R) : result R :=
  match xs with
  | [] => Raise ValueError
  | x :: rest => Ok (fold_left Rmin rest x)
  end.

(** The development loop of the prism branch: the rectangle of face [i],
    and the [draw.rectangle] call that draws it. *)
Definition dev_face (dev_x dev_y face_w face_h : R) (i : Z) : cmd :=
  let x0 := dev_x + IZR i * (face_w + 6) in
  let y0 := dev_y in
  Rectangle x0 y0 (x0 + face_w) (y0 + face_h) LINE_HP.

Definition draw_dev_face (dev_x dev_y face_w face_h : R) (i : Z)
  : result cmd :=
  let x0 := dev_x + IZR i * (face_w + 6) in
  let y0 := dev_y in
  draw_rectangle x0 y0 (x0 + face_w) (y0 + face_h) LINE_HP.

Definition draw_prism (p : params) : result (list cmd) :=
  let typ :=
    match solid_type p with Some t => t | None => "prism"%string end in
  let sizes := match sizes p with Some l => l | None => [] end in
  let center_f := center_of FRONT_BOX in
  let center_t := center_of TOP_BOX in
  let cfx := IZR (fst center_f) in
  let cfy := IZR (snd center_f) in
  let ctx := IZR (fst center_t) in
  let cty := IZR (snd center_t) in
  if (typ =? "cube")%string then
    let a := match sizes with x :: _ => x | [] => 50 end in
    scale <- fit_scale_for_box (a * 3) FRONT_BOX ;;
    let l := a * scale / 2 in
    front <- draw_rectangle (cfx - l) (cfy - l) (cfx + l) (cfy + l) LINE_HP ;;
    top <- draw_rectangle (ctx - l) (cty - l) (ctx + l) (cty + l) LINE_VP ;;
    Ok (draw_info_panel [[Lit "Cube side "; Repr a; Lit " mm"]]
        ++ [ front; top ])
  else if (typ =? "cuboid")%string then
    let '(w, d, h) :=
      match sizes with
      | w :: d :: h :: _ => (w, d, h)
      | _ => (80, 50, 60)
      end in
    scale <- fit_scale_for_box (py_max w [d; h] * 3) FRONT_BOX ;;
    let lw := w * scale / 2 in
    let lh := h * scale / 2 in
    let ld := d * scale / 2 in
    front <-
      draw_rectangle (cfx - lw) (cfy - lh) (cfx + lw) (cfy + lh) LINE_HP ;;
    top <-
      draw_rectangle (ctx - lw) (cty - ld) (ctx + lw) (cty + ld) LINE_VP ;;
    Ok (draw_info_panel
          [[Lit "Cuboid "; Repr w; Lit " x "; Repr d; Lit " base, height ";
            Repr h; Lit " mm"]]
        ++ [ front; top ])
  else if (typ =? "cylinder")%string then
    let '(diam, h) :=
      match sizes with
      | diam :: h :: _ => (diam, h)
      | _ => (50, 80)
      end in
    scale <- fit_scale_for_box (py_max diam [h] * (5 / 2)) FRONT_BOX ;;
    let r := diam / 2 * scale in
    upper <-
      draw_ellipse (cfx - r) (cfy - h * scale / 2 - r / 3)
                   (cfx + r) (cfy - h * scale / 2 + r / 3) LINE_HP ;;
    body <-
      draw_rectangle (cfx - r) (cfy - h * scale / 2 + r / 3)
                     (cfx + r) (cfy + h * scale / 2 - r / 3) LINE_HP ;;
    lower <-
      draw_ellipse (cfx - r) (cfy + h * scale / 2 - r / 3)
                   (cfx + r) (cfy + h * scale / 2 + r / 3) LINE_HP ;;
    top <- draw_ellipse (ctx - r) (cty - r) (ctx + r) (cty + r) LINE_VP ;;
    Ok (draw_info_panel
          [[Lit "Cylinder D="; Repr diam; Lit " mm, height="; Repr h;
            Lit " mm"]]
        ++ [ upper; body; lower; top ])
  else if (typ =? "cone")%string then
    let '(diam, h) :=
      match sizes with
      | diam :: h :: _ => (diam, h)
      | _ => (50, 80)
      end in
    scale <- fit_scale_for_box (py_max diam [h] * 3) FRONT_BOX ;;
    let r := diam / 2 * scale in
    top <- draw_ellipse (ctx - r) (cty - r) (ctx + r) (cty + r) LINE_VP ;;
    Ok (draw_info_panel
          [[Lit "Cone D="; Repr diam; Lit " mm, height="; Repr h; Lit " mm"]]
        ++ [ Polygon [ (cfx - r, cfy + h * scale / 2);
                       (cfx + r, cfy + h * scale / 2);
                       (cfx, cfy - h * scale / 2) ];
             top ])
  else if (typ =? "pyramid")%string then
    let '(base, height) :=
      match sizes with
      | base :: height :: _ => (base, height)
      | _ => (60, 80)
      end in
    scale <- fit_scale_for_box (base * 3) FRONT_BOX ;;
    let b := base * scale / 2 in
    Ok (draw_info_panel
          [[Lit "Pyramid base="; Repr base; Lit " mm, height="; Repr height;
            Lit " mm"]]
        ++ [ Line [ (ctx - b, cty - b); (ctx + b, cty - b); (ctx + b, cty + b);
                    (ctx - b, cty + b); (ctx - b, cty - b) ] LINE_VP;
             Polygon [ (cfx - b, cfy + b); (cfx + b, cfy + b);
                       (cfx, cfy - height * scale) ] ])
  else if (typ =? "prism")%string then
    let '(n, side, height) :=
      match sizes with
      | a :: b :: c :: _ => (py_int a, b, c)
      | [a; b] => (4%Z, a, b)
      | [a] => (4%Z, a, a * (12 / 10))
      | [] => (4%Z, 50, 80)
      end in
    scale <- fit_scale_for_box (py_max (side * 2) [height] * 3) FRONT_BOX ;;
    poly <- regular_polygon_vertices n side ;;
    let pts_t :=
      map (fun q : pt => (ctx + fst q * scale, cty + snd q * scale)) poly in
    top_outline <- closed pts_t ;;
    let xs := map fst poly in
    let ys := map snd poly in
    hi <- max_of xs ;;
    lo <- min_of xs ;;
    let width_mm := hi - lo in
    let w_px := width_mm * scale in
    let h_px := height * scale in
    let leftf := cfx - w_px / 2 in
    let rightf := cfx + w_px / 2 in
    let topf := cfy - h_px / 2 in
    let botf := cfy + h_px / 2 in
    let dev_x := IZR (box_left INFO_BOX + 20) in
    let dev_y := IZR (box_top FRONT_BOX) in
    front <- draw_rectangle leftf topf rightf botf LINE_HP ;;
    let face_w := side * scale in
    let face_h := height * scale in
    faces <- mapM (draw_dev_face dev_x dev_y face_w face_h) (range n) ;;
    Ok (draw_info_panel
          [ [Lit "Regular prism n="; ReprZ n; Lit ", side="; Repr side;
             Lit " mm, height="; Repr height; Lit " mm"];
            [Lit "Lateral development shown below"] ]
        ++ [ Line top_outline LINE_VP; front ]
        ++ faces)
  else
    Ok (draw_info_panel [[Lit "Solid type not yet implemented."]]).

(** ** Reading drawings, sample requests *)

(** Euclidean distance between two plane points. *)
Definition distance (a b : pt) : R :=
  sqrt ((fst a - fst b) * (fst a - fst b) + (snd a - snd b) * (snd a - snd b)).

(** The vertex that [regular_polygon_vertices] places at index [i]. *)
Definition vertex (n : Z) (radius : R) (i : Z) : pt :=
  (radius * cos (- PI / 2 + 2 * PI * IZR i / IZR n),
   radius * sin (- PI / 2 + 2 * PI * IZR i / IZR n)).

(** The five commands of [draw_point] around a front marker [f] and a top
    marker [t]. *)
Definition point_cmds (f t : pt) (label : string) : list cmd :=
  [ Ellipse (fst f - 6) (snd f - 6) (fst f + 6) (snd f + 6) LINE_HP;
    Ellipse (fst t - 5) (snd t - 5) (fst t + 5) (snd t + 5) LINE_VP;
    Line [f; t] LINE_CONST;
    Text (fst f + 10, snd f - 10) [Lit (label ++ "''")];
    Text (fst t + 10, snd t - 10) [Lit (label ++ "'")] ].

(** Requests of the form [{'infront': y, 'above': z}]. *)
Definition point_request (y z : R) : params :=
  mkParams (Num y) (Num z) Absent Absent Absent None Absent None Absent Absent
           None.

(** The projector (construction) segments of a drawing: the two-point
    lines of width [LINE_CONST]. *)
Fixpoint construction_segments (cmds : list cmd) : list (pt * pt) :=
  match cmds with
  | [] => []
  | Line [a; b] w :: rest =>
      if (w =? LINE_CONST)%Z then (a, b) :: construction_segments rest
      else construction_segments rest
  | _ :: rest => construction_segments rest
  end.

(** The polylines drawn with stroke width [w]: [LINE_HP] for the front
    view, [LINE_VP] for the top view. *)
Fixpoint outlines (w : Z) (cmds : list cmd) : list (list pt) :=
  match cmds with
  | [] => []
  | Line pts w' :: rest =>
      if (w' =? w)%Z then pts :: outlines w rest else outlines w rest
  | _ :: rest => outlines w rest
  end.

(** The rectangles drawn with stroke width [w], as corner lists in the
    order top-left, top-right, bottom-right, bottom-left. *)
Fixpoint rectangles (w : Z) (cmds : list cmd) : list (list pt) :=
  match cmds with
  | [] => []
  | Rectangle x0 y0 x1 y1 w' :: rest =>
      if (w' =? w)%Z
      then [(x0, y0); (x1, y0); (x1, y1); (x0, y1)] :: rectangles w rest
      else rectangles w rest
  | _ :: rest => rectangles w rest
  end.

(** [params[k] = v] (or [del params[k]] for [Absent]) on the keys of a
    line or lamina request. *)
Definition set_true_length (a : attr) (p : params) : params :=
  mkParams (infront p) (above p) a (angle_hp p) (angle_vp p) (shape p)
           (size p) (sizes p) (surface_angle p) (edge_angle_to_VP p)
           (solid_type p).

Definition set_angle_hp (a : attr) (p : params) : params :=
  mkParams (infront p) (above p) (true_length p) a (angle_vp p) (shape p)
           (size p) (sizes p) (surface_angle p) (edge_angle_to_VP p)
           (solid_type p).

Definition set_angle_vp (a : attr) (p : params) : params :=
  mkParams (infront p) (above p) (true_length p) (angle_hp p) a (shape p)
           (size p) (sizes p) (surface_angle p) (edge_angle_to_VP p)
           (solid_type p).

Definition set_size (a : attr) (p : params) : params :=
  mkParams (infront p) (above p) (true_length p) (angle_hp p) (angle_vp p)
           (shape p) a (sizes p) (surface_angle p) (edge_angle_to_VP p)
           (solid_type p).

Definition set_sizes (l : option (list R)) (p : params) : params :=
  mkParams (infront p) (above p) (true_length p) (angle_hp p) (angle_vp p)
           (shape p) (size p) l (surface_angle p) (edge_angle_to_VP p)
           (solid_type p).

Definition set_shape (s : option string) (p : params) : params :=
  mkParams (infront p) (above p) (true_length p) (angle_hp p) (angle_vp p)
           s (size p) (sizes p) (surface_angle p) (edge_angle_to_VP p)
           (solid_type p).

Definition set_surface_angle (a : attr) (p : params) : params :=
  mkParams (infront p) (above p) (true_length p) (angle_hp p) (angle_vp p)
           (shape p) (size p) (sizes p) a (edge_angle_to_VP p)
           (solid_type p).

Definition set_solid_type (s : option string) (p : params) : params :=
  mkParams (infront p) (above p) (true_length p) (angle_hp p) (angle_vp p)
           (shape p) (size p) (sizes p) (surface_angle p) (edge_angle_to_VP p)
           s.

(** A line request with the out-of-domain length [-80]. *)
Definition negative_line : params := set_true_length (Num (- 80)) no_params.

(** One projector per index-paired couple of vertices. *)
Definition segments_between (F T : list pt) : list cmd :=
  map (fun ft : pt * pt => Line [fst ft; snd ft] LINE_CONST) (combine F T).

(** A closed outline: the vertices followed by the first one again. *)
Definition loop (pts : list pt) : list pt := pts ++ firstn 1 pts.

(** The side length [draw_lamina] works with. *)
Definition lamina_size (p : params) : option R :=
  py_or (py_or (get (size p)) (first_of_sizes p)) (Some 30).

(** The scale [draw_lamina] derives for a side [s]. *)
Definition lamina_scale (s : R) : R := 374 / (py_max s [100] * (22 / 10)).

(** The number of sides of the pentagon / hexagon / polygon branch. *)
Definition polygon_sides (sh : string) : Z :=
  if (sh =? "hexagon")%string then 6
  else if (sh =? "pentagon")%string then 5 else 6.

(** The shapes and solid types the drawing routines know. *)
Definition lamina_shapes : list string :=
  [ "triangle"; "square"; "rectangle"; "pentagon"; "hexagon"; "polygon";
    "circle" ]%string.

Definition solid_types : list string :=
  [ "cube"; "cuboid"; "cylinder"; "cone"; "pyramid"; "prism" ]%string.

(** The request [Lamina{shape="rhombus"}] and a solid of unknown type. *)
Definition rhombus_request : params := set_shape (Some "rhombus"%string) no_params.
Definition sphere_request : params :=
  set_solid_type (Some "sphere"%string) no_params.

(** [{'shape': 'triangle', 'size': 30, 'surface_angle': 60}]. *)
Definition triangle_30_60 : params :=
  set_surface_angle (Num 60)
    (set_size (Num 30) (set_shape (Some "triangle"%string) no_params)).


(** [{'solid_type': 'prism', 'sizes': [5, 30, 80]}]. *)
Definition prism_5_30_80 : params :=
  set_sizes (Some [5; 30; 80]) (set_solid_type (Some "prism"%string) no_params).

(** Width of the bounding interval of a list of abscissas:
    [max(xs) - min(xs)]. *)
Definition bbox_width (xs : list R) : R :=
  match xs with
  | [] => 0
  | x :: rest => py_max x rest - fold_left Rmin rest x
  end.

(** Corners of the rectangle of width [w] and height [h] whose top-left
    corner is [(x, y)], clockwise from there. *)
Definition corners (x y w h : R) : list pt :=
  [ (x, y); (x + w, y); (x + w, y + h); (x, y + h) ].

(** The scale derived for the prism [5, 30, 80]: 374 / 240 px/mm. *)
Definition prism_scale : R := 187 / 120.









(** ** The page: reference line, font cache and routing *)

(** [draw_xy_line(draw)]: the XY reference line across the canvas and the
    captions of the two views. *)
Definition draw_xy_line : list cmd :=
  [ Line [ (IZR MARGIN, IZR XY_Y); (IZR (CANVAS_W - MARGIN), IZR XY_Y) ] 1;
    Text (IZR (MARGIN + 6), IZR (XY_Y - 30))
         [Lit "Front view (above XY) — First angle"];
    Text (IZR (MARGIN + 6), IZR (XY_Y + 8)) [Lit "Top view (below XY)"] ].

(** A loaded font: [ImageFont.truetype("DejaVuSans.ttf", sz)] or
    [ImageFont.load_default()]. *)
Inductive font : Type :=
| TrueType (sz : Z)
| DefaultFont.

(** [load_font(sz)] on the global [FONT] (here [cache]); [truetype_ok sz]
    tells whether [ImageFont.truetype] succeeds for that size on the
    machine at hand.  Returns the font and the new value of [FONT]. *)
Definition load_font (truetype_ok : Z -> bool) (sz : Z) (cache : option font)
  : font * option font :=
  match cache with
  | None =>
      let f := if truetype_ok sz then TrueType sz else DefaultFont in
      (f, Some f)
  | Some f => (f, Some f)
  end.

(** The choices of the "Force question type" select box. *)
Inductive force : Type :=
| AutoDetect
| ForcePoint
| ForceLine
| ForceLamina
| ForceSolid
| ForceDevelopment.

Definition force_name (f : force) : string :=
  match f with
  | AutoDetect => "Auto-detect"
  | ForcePoint => "Point"
  | ForceLine => "Line"
  | ForceLamina => "Lamina"
  | ForceSolid => "Solid"
  | ForceDevelopment => "Development"
  end.

(** [{v}] in an f-string for a value that is a float or [None]. *)
Definition repr_value (v : option R) : piece :=
  match v with
  | Some r => Repr r
  | None => Lit "None"
  end.

(** The message of the page when no routine applies, split at its
    newlines. *)
Definition fallback_message : list text :=
  [ [Lit "Could not auto-detect question type. Try typing clearly or choose Force question type (sidebar). Example inputs:"];
    [Lit "- Point A 20 mm infront of VP and 30 mm above HP"];
    [Lit "- Line AB 80 mm long inclined 30 deg to HP and 45 deg to VP"];
    [Lit "- Triangular lamina 30 mm sides resting on HP surface 60° to HP"];
    [Lit "- Prism 5 30 80  (5-sided prism, side=30, height=80)"] ].

(** The force option: [parsed['type'] = force_type.lower()] unless the
    box is left on "Auto-detect". *)
Definition apply_force (parsed_type : option string) (force_type : force)
  : option string :=
  if negb (force_name force_type =? "Auto-detect")%string
  then Some (lower_all (force_name force_type))
  else parsed_type.

(** [typ == name] for the [typ] read back from [parsed]. *)
Definition type_is (typ : option string) (name : string) : bool :=
  match typ with
  | Some t => (t =? name)%string
  | None => false
  end.

(** The handler of the "Generate projection" button, up to the image
    being shown: a fresh canvas, the XY line, then the routine the type
    routes to.  [parsed_type] is [parsed.get('type')] as the parser left
    it and [p] is [parsed.get('params', {})]. *)
Definition generate (parsed_type : option string) (force_type : force)
  (p : params) : result (list cmd) :=
  let typ := apply_force parsed_type force_type in
  if type_is typ "point" || (force_name force_type =? "Point")%string then
    drawn <- draw_point p "A" ;;
    let infront := get_default (infront p) 30 in
    let above := get_default (above p) 30 in
    Ok (draw_xy_line ++ drawn
        ++ draw_info_panel
             [ [Lit "Point projection"];
               [Lit "Infront of VP (y) = "; repr_value infront; Lit " mm"];
               [Lit "Above HP (z) = "; repr_value above; Lit " mm"] ])
  else if type_is typ "line" || (force_name force_type =? "Line")%string then
    drawn <- draw_line p ;; Ok (draw_xy_line ++ drawn)
  else if type_is typ "lamina" || (force_name force_type =? "Lamina")%string then
    drawn <- draw_lamina p ;; Ok (draw_xy_line ++ drawn)
  else if type_is typ "solid" || (force_name force_type =? "Solid")%string then
    drawn <- draw_prism p ;; Ok (draw_xy_line ++ drawn)
  else
    Ok (draw_xy_line ++ draw_info_panel fallback_message).

(** Whether a point lies in a box, borders included. *)
Definition in_box (b : box) (q : pt) : Prop :=
  IZR (box_left b) <= fst q <= IZR (box_right b)
  /\ IZR (box_top b) <= snd q <= IZR (box_bottom b).

(** The lamina shapes built on [regular_polygon_vertices], with their
    number of sides. *)
Definition regular_sides (sh : string) : Z :=
  if (sh =? "triangle")%string then 3 else polygon_sides sh.

(** [{'shape': 'hexagon', 'size': 40}]. *)
Definition hexagon_40 : params :=
  set_size (Num 40) (set_shape (Some "hexagon"%string) no_params).


(** [{'solid_type': 'cube', 'sizes': [7]}]. *)
Definition cube_7 : params :=
  set_sizes (Some [7]) (set_solid_type (Some "cube"%string) no_params).

(** A run of [load_font] calls with the given sizes, threading the global
    [FONT]: the fonts returned, in order, and the final cache. *)
Fixpoint load_fonts (truetype_ok : Z -> bool) (sizes : list Z)
  (cache : option font) : list font * option font :=
  match sizes with
  | [] => ([], cache)
  | sz :: rest =>
      let '(f, cache') := load_font truetype_ok sz cache in
      let '(fs, final) := load_fonts truetype_ok rest cache' in
      (f :: fs, final)
  end.

(** ** [cadtest.py]: the geometry engine of the prototype page *)

Module Cadtest.

Definition point3 : Type := (R * R * R)%type.

(** [rotate_point(p, angle_deg)]: rotation about the vertical axis. *)
Definition rotate_point (p : point3) (angle_deg : R) : point3 :=
  let angle := radians angle_deg in
  let '(x, y, z) := p in
  let xr := x * cos angle - y * sin angle in
  let yr := x * sin angle + y * cos angle in
  (xr, yr, z).

(** [project_first_angle(point)]: the front and the top image. *)
Definition project_first_angle (point : point3) : pt * pt :=
  let '(x, y, z) := point in
  let front := (x, z) in
  let top := (x, - y) in
  (front, top).

(** [model_line(length, angle)]. *)
Definition model_line (length angle : R) : list point3 :=
  let p1 := (0, 0, 0) in
  let p2 := (length * cos (radians angle),
             length * sin (radians angle), 0) in
  [p1; p2].

(** [model_plane(sides, radius)]; the division [360/sides] sits inside
    the loop and is kept fallible. *)
Definition model_plane (sides : Z) (radius : R) : result (list point3) :=
  mapM (fun i : Z =>
          step <- py_div 360 (IZR sides) ;;
          let ang := IZR i * step in
          let x := radius * cos (radians ang) in
          let y := radius * sin (radians ang) in
          Ok (x, y, 0))
       (range sides).

(** [model_cube(edge)]: the corners, [x] running fastest. *)
Definition model_cube (edge : R) : list point3 :=
  flat_map (fun z =>
    flat_map (fun y =>
      map (fun x => (x, y, z)) [0; edge]) [0; edge]) [0; edge].

(** Where [render_projection] puts the front and the top image of a
    point on its canvas. *)
Definition front_pixel (p : point3) : pt :=
  let '(f, t) := project_first_angle p in (fst f + 150, 300 - snd f).

Definition top_pixel (p : point3) : pt :=
  let '(f, t) := project_first_angle p in (fst t + 450, 300 - snd t).

(** [for i in range(len(pts)-1): draw_line(draw, pts[i], pts[i+1],
    "white", 3)]. *)
Definition chain (pts : list pt) : result (list cmd) :=
  mapM (fun i : Z =>
          a <- index pts i ;;
          b <- index pts (i + 1) ;;
          Ok (Line [a; b] 3))
       (range (Z.of_nat (List.length pts) - 1)).

(** [render_projection(obj_points)], as the commands issued on its
    canvas. *)
Definition render_projection (obj_points : list point3)
  : result (list cmd) :=
  let front_pts := map front_pixel obj_points in
  let top_pts := map top_pixel obj_points in
  front_lines <- chain front_pts ;;
  top_lines <- chain top_pts ;;
  Ok (front_lines ++ top_lines
      ++ [ Text (140, 350) [Lit "Front View"];
           Text (440, 350) [Lit "Top View"] ]).

(** The open chain of segments through a list of points, in order. *)
Fixpoint links (pts : list pt) : list cmd :=
  match pts with
  | a :: (b :: _) as rest => Line [a; b] 3 :: links rest
  | _ => []
  end.

End Cadtest.

(** ** [cadtest3.py]: the projections written as AutoCAD script and DXF *)

Module Cadtest3.

Definition SCALE : R := 1.
Definition XY_GAP : Z := 120.
Definition LEFT_MARGIN : Z := 50.

(** [mm(x)]: [float(x) * SCALE]. *)
Definition mm (x : option R) : result R :=
  v <- py_float x ;; Ok (v * SCALE).

Definition fv_origin : Z * Z := ((LEFT_MARGIN + 150)%Z, 200%Z).

Definition tv_origin : Z * Z :=
  let '(x, y) := fv_origin in (x, (y - XY_GAP)%Z).

(** A line of the script held by a [ScrBuilder]: [_LINE], [_CIRCLE] or
    [_TEXT] with its formatted coordinates. *)
Inductive scr_cmd : Type :=
| ScrLine (x1 y1 x2 y2 : R)
| ScrCircle (x y r : R)
| ScrText (x y : R) (s : string).

(** An entry of the primitives list written to the DXF file: the dict
    with its ['type'] and coordinates. *)
Inductive primitive : Type :=
| PrimLine (x1 y1 x2 y2 : R)
| PrimCircle (x y r : R)
| PrimText (x y : R) (s : string).

(** The [params] dict of the [proj_*] routines. *)
Record params : Type := mkParams {
  infront : attr;
  above : attr;
  length : attr;
  theta : attr;
  shape : option string;
  size : attr;
  incline : attr;
  resting_edge : attr;
  height : attr
}.

Definition drawing : Type := (list scr_cmd * list primitive)%type.

Definition proj_point (p : params) : result drawing :=
  let ox_fv := fv_origin in
  let ox_tv := tv_origin in
  let ax := IZR (fst ox_fv) in
  let ay := IZR (snd ox_fv) in
  dx <- mm (get_default (infront p) 0) ;;
  let x := ax + dx in
  dy <- mm (get_default (above p) 0) ;;
  let y := ay - dy in
  dtx <- mm (get_default (infront p) 0) ;;
  let tx := IZR (fst ox_tv) + dtx in
  let ty := IZR (snd ox_tv) in
  Ok ([ ScrLine (x - 2) y (x + 2) y; ScrLine x (y - 2) x (y + 2);
        ScrLine (tx - 2) ty (tx + 2) ty; ScrLine tx (ty - 2) tx (ty + 2) ],
      [ PrimLine (x - 2) y (x + 2) y; PrimLine x (y - 2) x (y + 2);
        PrimLine (tx - 2) ty (tx + 2) ty; PrimLine tx (ty - 2) tx (ty + 2) ]).

Definition proj_line (p : params) : result drawing :=
  let ox_fv := fv_origin in
  let ox_tv := tv_origin in
  L <- mm (get_default (length p) 80) ;;
  let x0 := IZR (fst ox_tv) - L / 2 in
  let x1 := x0 + L in
  th <- py_float (get_default (theta p) 30) ;;
  let theta := radians th in
  let apparent := L * cos theta in
  Ok ([ ScrLine x0 (IZR (snd ox_tv)) x1 (IZR (snd ox_tv));
        ScrLine (IZR (fst ox_fv) - apparent / 2) (IZR (snd ox_fv))
                (IZR (fst ox_fv) + apparent / 2) (IZR (snd ox_fv)) ],
      [ PrimLine x0 (IZR (snd ox_tv)) x1 (IZR (snd ox_tv));
        PrimLine (IZR (fst ox_fv) - apparent / 2) (IZR (snd ox_fv))
                 (IZR (fst ox_fv) + apparent / 2) (IZR (snd ox_fv)) ]).

Definition proj_plane_lamina (p : params) : result drawing :=
  let ox_fv := fv_origin in
  let ox_tv := tv_origin in
  let shape :=
    match shape p with Some sh => sh | None => "triangle"%string end in
  size <- mm (get_default (size p) 30) ;;
  inc <- py_float (get_default (incline p) 60) ;;
  let incline := radians inc in
  re <- py_float (get_default (resting_edge p) 45) ;;
  let resting_edge_angle := radians re in
  let cx_tv := IZR (fst ox_tv) in
  let cy_tv := IZR (snd ox_tv) in
  let '(scr_tv, prim_tv) :=
    if (shape =? "triangle")%string then
      let h := size * sqrt 3 / 2 in
      let p1 := (cx_tv - size / 2, cy_tv - h / 3) in
      let p2 := (cx_tv + size / 2, cy_tv - h / 3) in
      let p3 := (cx_tv, cy_tv + 2 * h / 3) in
      ([ ScrLine (fst p1) (snd p1) (fst p2) (snd p2);
         ScrLine (fst p2) (snd p2) (fst p3) (snd p3);
         ScrLine (fst p3) (snd p3) (fst p1) (snd p1) ],
       [ PrimLine (fst p1) (snd p1) (fst p2) (snd p2);
         PrimLine (fst p2) (snd p2) (fst p3) (snd p3);
         PrimLine (fst p3) (snd p3) (fst p1) (snd p1) ])
    else if (shape =? "circle")%string then
      ([ ScrCircle cx_tv cy_tv (size / 2) ],
       [ PrimCircle cx_tv cy_tv (size / 2) ])
    else
      let s := size in
      let p1 := (cx_tv - s / 2, cy_tv - s / 2) in
      let p2 := (cx_tv + s / 2, cy_tv - s / 2) in
      let p3 := (cx_tv + s / 2, cy_tv + s / 2) in
      let p4 := (cx_tv - s / 2, cy_tv + s / 2) in
      ([ ScrLine (fst p1) (snd p1) (fst p2) (snd p2);
         ScrLine (fst p2) (snd p2) (fst p3) (snd p3);
         ScrLine (fst p3) (snd p3) (fst p4) (snd p4);
         ScrLine (fst p4) (snd p4) (fst p1) (snd p1) ],
       [ PrimLine (fst p1) (snd p1) (fst p2) (snd p2);
         PrimLine (fst p2) (snd p2) (fst p3) (snd p3);
         PrimLine (fst p3) (snd p3) (fst p4) (snd p4);
         PrimLine (fst p4) (snd p4) (fst p1) (snd p1) ]) in
  let cx_fv := IZR (fst ox_fv) in
  let cy_fv := IZR (snd ox_fv) in
  let vscale := cos incline in
  let '(scr_fv, prim_fv) :=
    if (shape =? "triangle")%string then
      let p1f := (cx_fv - size / 2, cy_fv) in
      let p2f := (cx_fv + size / 2, cy_fv) in
      let p3f := (cx_fv, cy_fv - (2 * size * sqrt 3 / 6) * vscale) in
      ([ ScrLine (fst p1f) (snd p1f) (fst p2f) (snd p2f);
         ScrLine (fst p2f) (snd p2f) (fst p3f) (snd p3f);
         ScrLine (fst p3f) (snd p3f) (fst p1f) (snd p1f) ],
       [ PrimLine (fst p1f) (snd p1f) (fst p2f) (snd p2f);
         PrimLine (fst p2f) (snd p2f) (fst p3f) (snd p3f);
         PrimLine (fst p3f) (snd p3f) (fst p1f) (snd p1f) ])
    else if (shape =? "circle")%string then
      let r := size / 2 in
      ([ ScrCircle cx_fv cy_fv r ], [ PrimCircle cx_fv cy_fv r ])
    else
      let s := size in
      let p1f := (cx_fv - s / 2, cy_fv) in
      let p2f := (cx_fv + s / 2, cy_fv) in
      let p3f := (cx_fv + s / 2, cy_fv - s * vscale) in
      let p4f := (cx_fv - s / 2, cy_fv - s * vscale) in
      ([ ScrLine (fst p1f) (snd p1f) (fst p2f) (snd p2f);
         ScrLine (fst p2f) (snd p2f) (fst p3f) (snd p3f);
         ScrLine (fst p3f) (snd p3f) (fst p4f) (snd p4f);
         ScrLine (fst p4f) (snd p4f) (fst p1f) (snd p1f) ],
       [ PrimLine (fst p1f) (snd p1f) (fst p2f) (snd p2f);
         PrimLine (fst p2f) (snd p2f) (fst p3f) (snd p3f);
         PrimLine (fst p3f) (snd p3f) (fst p4f) (snd p4f);
         PrimLine (fst p4f) (snd p4f) (fst p1f) (snd p1f) ]) in
  Ok (scr_tv ++ scr_fv, prim_tv ++ prim_fv).

Definition proj_solid (p : params) : result drawing :=
  let ox_fv := fv_origin in
  let ox_tv := tv_origin in
  let shape :=
    match shape p with Some sh => sh | None => "cylinder"%string end in
  size <- mm (get_default (size p) 50) ;;
  height <- mm (get_default (height p) 100) ;;
  let cx_tv := IZR (fst ox_tv) in
  let cy_tv := IZR (snd ox_tv) in
  let '(scr_tv, prim_tv) :=
    if (shape =? "cylinder")%string then
      ([ ScrCircle cx_tv cy_tv (size / 2) ],
       [ PrimCircle cx_tv cy_tv (size / 2) ])
    else
      let s := size in
      let p1 := (cx_tv - s / 2, cy_tv - s / 2) in
      let p2 := (cx_tv + s / 2, cy_tv - s / 2) in
      let p3 := (cx_tv + s / 2, cy_tv + s / 2) in
      let p4 := (cx_tv - s / 2, cy_tv + s / 2) in
      ([ ScrLine (fst p1) (snd p1) (fst p2) (snd p2);
         ScrLine (fst p2) (snd p2) (fst p3) (snd p3);
         ScrLine (fst p3) (snd p3) (fst p4) (snd p4);
         ScrLine (fst p4) (snd p4) (fst p1) (snd p1) ],
       [ PrimLine (fst p1) (snd p1) (fst p2) (snd p2);
         PrimLine (fst p2) (snd p2) (fst p3) (snd p3);
         PrimLine (fst p3) (snd p3) (fst p4) (snd p4);
         PrimLine (fst p4) (snd p4) (fst p1) (snd p1) ]) in
  let cx_fv := IZR (fst ox_fv) in
  let cy_fv := IZR (snd ox_fv) in
  let left := cx_fv - size / 2 in
  let right := cx_fv + size / 2 in
  let bottom := cy_fv in
  let top := cy_fv - height in
  Ok (scr_tv
      ++ [ ScrLine left bottom right bottom; ScrLine right bottom right top;
           ScrLine right top left top; ScrLine left top left bottom ],
      prim_tv
      ++ [ PrimLine left bottom right bottom; PrimLine right bottom right top;
           PrimLine right top left top; PrimLine left top left bottom ]).

(** The primitive that stands for a script line. *)
Definition to_primitive (c : scr_cmd) : primitive :=
  match c with
  | ScrLine x1 y1 x2 y2 => PrimLine x1 y1 x2 y2
  | ScrCircle x y r => PrimCircle x y r
  | ScrText x y s => PrimText x y s
  end.

(** A drawing whose DXF primitives are, in order, those of its script. *)
Definition in_sync (d : drawing) : Prop := map to_primitive (fst d) = snd d.

(** [p.update({k: v})] on the keys the properties vary. *)
Definition set_resting_edge (a : attr) (p : params) : params :=
  mkParams (infront p) (above p) (length p) (theta p) (shape p) (size p)
           (incline p) a (height p).

Definition set_incline (a : attr) (p : params) : params :=
  mkParams (infront p) (above p) (length p) (theta p) (shape p) (size p)
           a (resting_edge p) (height p).

(** The empty dict. *)
Definition no_params : params :=
  mkParams Absent Absent Absent Absent None Absent Absent Absent Absent.

End Cadtest3.

(** * Properties *)

(** ** The result monad and Python primitives *)

Lemma py_div_nonzero (a b : R) : b <> 0 -> py_div a b = Ok (a / b).
Proof.
  intros Hb. unfold py_div. destruct (Req_dec_T b 0); [contradiction | reflexivity].
Qed.

Lemma py_div_zero (a : R) : py_div a 0 = Raise ZeroDivisionError.
Proof.
  unfold py_div. destruct (Req_dec_T 0 0) as [_ | H]; [reflexivity | now destruct H].
Qed.


Lemma truthy_nonzero (r : R) : r <> 0 -> truthy (Some r) = true.
Proof.
  intros Hr. unfold truthy. destruct (Req_dec_T r 0); [contradiction | reflexivity].
Qed.




Lemma py_or_num_nonzero (r d : R) : r <> 0 -> py_or_num (Some r) d = r.
Proof.
  intros Hr. unfold py_or_num, py_or. now rewrite truthy_nonzero.
Qed.

(** ** Layout constants *)

Lemma FRONT_BOX_eq : FRONT_BOX = (36, 36, 664, 430)%Z.
Proof. reflexivity. Qed.

Lemma TOP_BOX_eq : TOP_BOX = (36, 470, 664, 864)%Z.
Proof. reflexivity. Qed.

Lemma INFO_BOX_eq : INFO_BOX = (710, 36, 1364, 864)%Z.
Proof. reflexivity. Qed.

Lemma usable_front : usable_w FRONT_BOX = 608%Z /\ usable_h FRONT_BOX = 374%Z.
Proof. split; reflexivity. Qed.

(** ** Layout / scaler *)

Lemma fit_scale_zero (b : box) : fit_scale_for_box 0 b = Ok 1.
Proof.
  unfold fit_scale_for_box.
  destruct (Req_dec_T 0 0) as [_ | H]; [reflexivity | now destruct H].
Qed.

Lemma fit_scale_nonzero (m : R) (b : box) :
  m <> 0 ->
  fit_scale_for_box m b
  = Ok (Rmin (IZR (usable_w b) / m) (IZR (usable_h b) / m)).
Proof.
  intros Hm. unfold fit_scale_for_box.
  destruct (Req_dec_T m 0); [contradiction |].
  rewrite !py_div_nonzero by assumption. reflexivity.
Qed.

(** On the front box the height is the binding side: for a positive
    extent the scale is [374 / max_mm]. *)
Lemma fit_scale_front (m : R) :
  0 < m -> fit_scale_for_box m FRONT_BOX = Ok (374 / m).
Proof.
  intros Hm. rewrite fit_scale_nonzero by lra.
  destruct usable_front as [-> ->].
  f_equal. rewrite Rmin_right; [reflexivity |].
  unfold Rdiv. apply Rmult_le_compat_r; [| lra].
  left. now apply Rinv_0_lt_compat.
Qed.

(** C9 (as amended).  [fit_scale_for_box] never raises: whatever the
    extent and the box it returns a scale, which is exactly [1] when the
    extent is [0] and otherwise the smaller of usable width / extent and
    usable height / extent, the usable sides being the box sides less a
    20 pixel padding. *)
Theorem fit_scale_for_box_total (max_mm : R) (b : box) :
  exists s : R,
    fit_scale_for_box max_mm b = Ok s
    /\ (max_mm = 0 -> s = 1)
    /\ (max_mm <> 0 ->
        s = Rmin (IZR (usable_w b) / max_mm) (IZR (usable_h b) / max_mm)).
Proof.
  destruct (Req_dec_T max_mm 0) as [-> | Hm].
  - exists 1. rewrite fit_scale_zero. repeat split; auto.
    intros H; now destruct H.
  - eexists. rewrite fit_scale_nonzero by assumption.
    repeat split; auto. intros ->; now destruct Hm.
Qed.

Lemma fit_scale_for_box_total_witness :
  220 <> 0
  /\ fit_scale_for_box 220 FRONT_BOX = Ok (17 / 10)
  /\ fit_scale_for_box 0 FRONT_BOX = Ok 1.
Proof.
  assert (H220 : 220 <> 0) by lra.
  split; [exact H220 |]. split.
  - destruct (fit_scale_for_box_total 220 FRONT_BOX) as (s & Hs & _ & Hnz).
    rewrite Hs, (Hnz H220). destruct usable_front as [-> ->].
    f_equal. rewrite Rmin_right; lra.
  - destruct (fit_scale_for_box_total 0 FRONT_BOX) as (s & Hs & Hz & _).
    rewrite Hs, (Hz eq_refl). reflexivity.
Defined.

(** C9, counterexample.  For an extent of 220 mm in the front box, which
    is 628 pixels wide and 394 high, the scale is 374/220 = 1.7 and not
    the smaller of 628/220 and 394/220. *)
Lemma fit_scale_uses_padded_box :
  fit_scale_for_box 220 FRONT_BOX = Ok (17 / 10)
  /\ (box_right FRONT_BOX - box_left FRONT_BOX = 628)%Z
  /\ (box_bottom FRONT_BOX - box_top FRONT_BOX = 394)%Z
  /\ Rmin (628 / 220) (394 / 220) = 197 / 110
  /\ 17 / 10 <> 197 / 110.
Proof.
  split; [| split; [reflexivity | split; [reflexivity | split]]].
  - rewrite fit_scale_front by lra. f_equal. field.
  - rewrite Rmin_right by lra. field.
  - lra.
Qed.

(** ** Info calculator *)

Lemma radians_90 : radians 90 = PI / 2.
Proof. unfold radians. field. Qed.

Lemma radians_180 : radians 180 = PI.
Proof. unfold radians. field. Qed.

Lemma radians_60 : radians 60 = PI / 3.
Proof. unfold radians. field. Qed.

(** At a right angle the cosine is zero and [true_from_apparent] answers
    [None].  (This is where exact reals matter: the guard compares the
    computed cosine with [0]; the binary64 cosine at 90 degrees is a
    rounding residue, not zero, so this holds of the exact reading
    only.) *)
Lemma true_from_apparent_right_angle (ap : R) :
  true_from_apparent (Some ap) (Some 90) = Ok None.
Proof.
  unfold true_from_apparent. rewrite radians_90, cos_PI2.
  destruct (Req_dec_T 0 0) as [_ | H]; [reflexivity | now destruct H].
Qed.

(** [true_from_apparent] never raises. *)
Lemma true_from_apparent_total (ap a : option R) :
  exists r, true_from_apparent ap a = Ok r.
Proof.
  destruct ap as [ap |], a as [a |]; simpl; eauto.
  destruct (Req_dec_T (cos (radians a)) 0); eauto.
  rewrite py_div_nonzero by assumption. simpl. eauto.
Qed.

(** The round trip holds wherever the cosine is positive ... *)
Lemma roundtrip_positive_cos (L theta : R) :
  0 <= L -> 0 < cos (radians theta) ->
  true_from_apparent (apparent_length (Some L) (Some theta)) (Some theta)
  = Ok (Some L).
Proof.
  intros HL Hc. simpl.
  destruct (Req_dec_T (cos (radians theta)) 0); [lra |].
  rewrite py_div_nonzero by assumption. simpl. do 2 f_equal.
  rewrite Rabs_right; [field; assumption |].
  apply Rle_ge, Rmult_le_pos; lra.
Qed.

(** ... and flips the sign wherever it is negative. *)
Lemma roundtrip_negative_cos (L theta : R) :
  0 <= L -> cos (radians theta) < 0 ->
  true_from_apparent (apparent_length (Some L) (Some theta)) (Some theta)
  = Ok (Some (- L)).
Proof.
  intros HL Hc. simpl.
  destruct (Req_dec_T (cos (radians theta)) 0); [lra |].
  rewrite py_div_nonzero by assumption. simpl. do 2 f_equal.
  rewrite Rabs_left1; [field; assumption |].
  rewrite <- (Rmult_0_r L). apply Rmult_le_compat_l; lra.
Qed.

(** C1.  At [L = 80], [theta = 180] (an angle outside 90, 270, ...) the
    round trip does not give back [80]: [apparent_length] takes an
    absolute value, [true_from_apparent] divides by the signed cosine
    [-1], and the composition returns [-80]. *)
Theorem roundtrip_at_180 :
  true_from_apparent (apparent_length (Some 80) (Some 180)) (Some 180)
  = Ok (Some (- 80))
  /\ cos (radians 180) <> 0
  /\ Ok (Some (- 80)) <> Ok (Some 80).
Proof.
  assert (Hc : cos (radians 180) = -1) by (rewrite radians_180; apply cos_PI).
  split; [| split].
  - apply roundtrip_negative_cos; lra.
  - lra.
  - intros H. injection H. lra.
Qed.

(** ** Regular polygons *)

Lemma range_length (n : Z) : List.length (range n) = Z.to_nat n.
Proof. unfold range. now rewrite length_map, length_seq. Qed.

Lemma range_nth (n : Z) (i : nat) (d : Z) :
  (i < Z.to_nat n)%nat -> nth i (range n) d = Z.of_nat i.
Proof.
  intros Hi. unfold range.
  rewrite (nth_indep _ d (Z.of_nat 0)) by now rewrite length_map, length_seq.
  rewrite map_nth, seq_nth by assumption. reflexivity.
Qed.

Lemma sin_pi_over_n_pos (n : Z) : (3 <= n)%Z -> 0 < sin (PI / IZR n).
Proof.
  intros Hn. assert (Hr : 3 <= IZR n) by now apply IZR_le.
  assert (Hpi := PI_RGT_0).
  apply sin_gt_0.
  - apply Rdiv_lt_0_compat; lra.
  - apply Rmult_lt_reg_r with (IZR n); [lra |].
    unfold Rdiv. rewrite Rmult_assoc, Rinv_l by lra. nra.
Qed.

(** [regular_polygon_vertices] never raises, and its value is the list of
    the [vertex]es of indices [0 .. n-1] on the circle of radius
    [side / (2 sin (pi/n))], [n] being clamped to at least 3. *)
Lemma regular_polygon_vertices_eq (n : Z) (side : R) :
  let m := if (n <? 3)%Z then 3%Z else n in
  regular_polygon_vertices n side
  = Ok (map (vertex m (side / (2 * sin (PI / IZR m)))) (range m)).
Proof.
  intros m. unfold regular_polygon_vertices. fold m.
  assert (Hm : (3 <= m)%Z) by (unfold m; destruct (Z.ltb_spec n 3); lia).
  assert (Hs := sin_pi_over_n_pos m Hm).
  rewrite py_div_nonzero by lra. reflexivity.
Qed.

Lemma distance_from_origin (radius a : R) :
  0 <= radius ->
  distance (radius * cos a, radius * sin a) (0, 0) = radius.
Proof.
  intros Hr. unfold distance; simpl.
  replace ((radius * cos a - 0) * (radius * cos a - 0)
           + (radius * sin a - 0) * (radius * sin a - 0))
    with (radius * radius).
  - now apply sqrt_square.
  - assert (H := sin2_cos2 a). unfold Rsqr in H. nra.
Qed.

(** Length of the chord between the points of arguments [a] and [b]. *)
Lemma chord_sqr (radius a b : R) :
  (radius * cos a - radius * cos b) * (radius * cos a - radius * cos b)
  + (radius * sin a - radius * sin b) * (radius * sin a - radius * sin b)
  = 2 * (radius * radius) * (1 - cos (a - b)).
Proof.
  rewrite cos_minus.
  assert (Ha := sin2_cos2 a). assert (Hb := sin2_cos2 b).
  unfold Rsqr in Ha, Hb. nra.
Qed.

Lemma chord_of_step (radius a b step : R) :
  0 <= radius -> 0 <= sin step ->
  cos (a - b) = cos (2 * step) ->
  distance (radius * cos a, radius * sin a) (radius * cos b, radius * sin b)
  = 2 * radius * sin step.
Proof.
  intros Hr Hs Hc. unfold distance; simpl.
  rewrite chord_sqr, Hc, cos_2a_sin.
  replace (2 * (radius * radius) * (1 - (1 - 2 * sin step * sin step)))
    with ((2 * radius * sin step) * (2 * radius * sin step)) by ring.
  apply sqrt_square. apply Rmult_le_pos; lra.
Qed.

Lemma cos_minus_2PI (x : R) : cos (x - 2 * PI) = cos x.
Proof. rewrite cos_minus, cos_2PI, sin_2PI. ring. Qed.

(** Consecutive vertices, the last and the first included, are one side
    apart. *)
Lemma vertex_step (n : Z) (side : R) (i : nat) :
  (3 <= n)%Z -> 0 < side -> (i < Z.to_nat n)%nat ->
  let radius := side / (2 * sin (PI / IZR n)) in
  distance (vertex n radius (Z.of_nat i))
           (vertex n radius (Z.of_nat (S i mod Z.to_nat n)))
  = side.
Proof.
  intros Hn Hside Hi radius.
  assert (Hs := sin_pi_over_n_pos n Hn).
  assert (Hr : 3 <= IZR n) by now apply IZR_le.
  assert (Hrad : 0 < radius).
  { unfold radius. apply Rdiv_lt_0_compat; lra. }
  unfold vertex.
  rewrite (chord_of_step radius _ _ (PI / IZR n)); try lra.
  - unfold radius. field. lra.
  - destruct (Nat.eq_dec (S i) (Z.to_nat n)) as [Hlast | Hmid].
    + rewrite Hlast, Nat.Div0.mod_same.
      assert (Hi' : IZR (Z.of_nat i) = IZR n - 1).
      { rewrite <- minus_IZR. f_equal. lia. }
      rewrite Hi'. change (IZR (Z.of_nat 0)) with 0.
      rewrite <- (cos_minus_2PI (2 * (PI / IZR n))),
              <- (cos_neg (2 * (PI / IZR n) - 2 * PI)).
      f_equal. field. lra.
    + rewrite Nat.mod_small by lia.
      rewrite Nat2Z.inj_succ, succ_IZR.
      rewrite <- (cos_neg (2 * (PI / IZR n))).
      f_equal. field. lra.
Qed.

(** C8.  For [n >= 3] and [s > 0], [regular_polygon_vertices n s] returns
    exactly [n] vertices, each at distance [R = s / (2 sin (pi/n))] from
    the origin, and any two consecutive vertices (the last followed by
    the first) are at distance [s]. *)
Theorem regular_polygon_vertices_spec (n : Z) (s : R) :
  (3 <= n)%Z -> 0 < s ->
  exists pts : list pt,
    regular_polygon_vertices n s = Ok pts
    /\ List.length pts = Z.to_nat n
    /\ (forall v, In v pts -> distance v (0, 0) = s / (2 * sin (PI / IZR n)))
    /\ (forall i, (i < List.length pts)%nat ->
          distance (nth i pts (0, 0))
                   (nth (S i mod List.length pts) pts (0, 0)) = s).
Proof.
  intros Hn Hs.
  pose proof (regular_polygon_vertices_eq n s) as Heq. cbv zeta in Heq.
  replace (if (n <? 3)%Z then 3%Z else n) with n in Heq
    by (destruct (Z.ltb_spec n 3); lia).
  eexists. split; [exact Heq |].
  assert (Hsin := sin_pi_over_n_pos n Hn).
  assert (Hlen : List.length
                   (map (vertex n (s / (2 * sin (PI / IZR n)))) (range n))
                 = Z.to_nat n)
    by now rewrite length_map, range_length.
  assert (Hnth : forall j, (j < Z.to_nat n)%nat ->
            nth j (map (vertex n (s / (2 * sin (PI / IZR n)))) (range n)) (0, 0)
            = vertex n (s / (2 * sin (PI / IZR n))) (Z.of_nat j)).
  { intros j Hj.
    rewrite (nth_indep _ (0, 0) (vertex n (s / (2 * sin (PI / IZR n))) 0%Z))
      by (rewrite length_map, range_length; exact Hj).
    rewrite map_nth, range_nth by assumption. reflexivity. }
  split; [exact Hlen |]. split.
  - intros v Hv. apply in_map_iff in Hv. destruct Hv as (i & <- & _).
    apply distance_from_origin. left. apply Rdiv_lt_0_compat; lra.
  - intros i Hi. rewrite Hlen in *.
    rewrite !Hnth; [| apply Nat.mod_upper_bound; lia | assumption].
    now apply vertex_step.
Qed.

Lemma regular_polygon_vertices_spec_witness :
  (3 <= 4)%Z /\ 0 < 2
  /\ exists pts : list pt,
       regular_polygon_vertices 4 2 = Ok pts
       /\ List.length pts = 4%nat
       /\ (forall v, In v pts -> distance v (0, 0) = 2 / (2 * sin (PI / 4)))
       /\ (forall i, (i < List.length pts)%nat ->
             distance (nth i pts (0, 0))
                      (nth (S i mod List.length pts) pts (0, 0)) = 2).
Proof.
  assert (H4 : (3 <= 4)%Z) by lia.
  assert (H2 : 0 < 2) by lra.
  split; [exact H4 |]. split; [exact H2 |].
  exact (regular_polygon_vertices_spec 4 2 H4 H2).
Defined.

(** ** Box-centred coordinates *)

Ltac rmax :=
  unfold py_max; cbn [fold_left];
  repeat match goal with
    | |- context [Rmax ?a ?b] =>
        first [ rewrite (Rmax_right a b) by lra
              | rewrite (Rmax_left a b) by lra ]
    end.

Lemma transform_front (x y s : R) :
  transform_to_box_coords x y FRONT_BOX s = (350 + x * s, 233 - y * s).
Proof.
  unfold transform_to_box_coords.
  change (IZR (box_left FRONT_BOX + box_right FRONT_BOX)) with 700.
  change (IZR (box_top FRONT_BOX + box_bottom FRONT_BOX)) with 466.
  f_equal; lra.
Qed.

Lemma transform_top (x y s : R) :
  transform_to_box_coords x y TOP_BOX s = (350 + x * s, 667 - y * s).
Proof.
  unfold transform_to_box_coords.
  change (IZR (box_left TOP_BOX + box_right TOP_BOX)) with 700.
  change (IZR (box_top TOP_BOX + box_bottom TOP_BOX)) with 1334.
  f_equal; lra.
Qed.

Lemma center_front : center_of FRONT_BOX = (350, 233)%Z.
Proof. reflexivity. Qed.

Lemma center_top : center_of TOP_BOX = (350, 667)%Z.
Proof. reflexivity. Qed.

Lemma py_max_lower (x : R) (xs : list R) : x <= py_max x xs.
Proof.
  unfold py_max. revert x. induction xs as [| y ys IH]; intros x; simpl.
  - lra.
  - eapply Rle_trans; [apply (Rmax_l x y) | apply IH].
Qed.

Lemma py_max_in (x : R) (xs : list R) (y : R) : In y xs -> y <= py_max x xs.
Proof.
  unfold py_max. revert x. induction xs as [| z zs IH]; intros x; simpl.
  - contradiction.
  - intros [-> | Hin].
    + eapply Rle_trans; [apply (Rmax_r x y) | apply (py_max_lower _ zs)].
    + now apply IH.
Qed.

(** ** Point *)

(** With numeric attributes [draw_point] never raises; the front marker
    sits at height [above] over the front-box centre and the top marker
    at [infront] over the top-box centre, both at the one scale. *)
Lemma draw_point_num (p : params) (label : string) (y z : R) :
  get_default (infront p) 30 = Some y ->
  get_default (above p) 30 = Some z ->
  let scale := 187 / py_max y [z; 100] in
  draw_point p label
  = Ok (point_cmds (350, 233 - z * scale) (350, 667 - y * scale) label).
Proof.
  intros Hy Hz scale. unfold draw_point. rewrite Hy, Hz. cbn [py_float bind].
  assert (Hm : 100 <= py_max y [z; 100]) by (apply py_max_in; simpl; auto).
  rewrite fit_scale_front by lra. cbn [bind].
  replace (374 / (py_max y [z; 100] * 2)) with scale
    by (unfold scale; field; lra).
  rewrite transform_front, transform_top.
  unfold point_cmds. cbn [fst snd].
  replace (350 + 0 * scale) with 350 by lra. reflexivity.
Qed.

(** While the extent stays under the 100 mm floor the scale is fixed, and
    the top marker of a point further in front of the VP is drawn higher
    on the canvas, that is closer to the XY line that lies above the top
    view. *)
Lemma top_marker_rises (y1 y2 z : R) :
  0 <= y1 -> y1 < y2 -> y2 <= 100 -> z <= 100 ->
  exists t1 t2 f : R,
    draw_point (point_request y1 z) "A" = Ok (point_cmds (350, f) (350, t1) "A")
    /\ draw_point (point_request y2 z) "A" = Ok (point_cmds (350, f) (350, t2) "A")
    /\ IZR XY_Y < t2 < t1.
Proof.
  intros H0 H12 H2 Hz.
  exists (667 - y1 * (187 / 100)), (667 - y2 * (187 / 100)),
         (233 - z * (187 / 100)).
  assert (Hm : forall y, y <= 100 -> py_max y [z; 100] = 100).
  { intros y Hy. unfold py_max; simpl.
    apply Rmax_right, Rmax_lub; assumption. }
  split; [| split].
  - rewrite (draw_point_num _ _ y1 z) by reflexivity.
    cbv zeta. rewrite Hm by lra. reflexivity.
  - rewrite (draw_point_num _ _ y2 z) by reflexivity.
    cbv zeta. rewrite Hm by lra. reflexivity.
  - change (IZR XY_Y) with 450. lra.
Qed.

(** C6.  [draw_point] evaluated at [infront = 20] and at [infront = 30]
    (with [above = 30]): the front marker is at [(x, z)] scaled about the
    front-box centre, but the top marker goes from pixel row 629.6 up to
    row 610.9, towards the XY line at row 450: a larger distance in front
    of the VP brings the top view closer to the reference line, not
    farther below it. *)
Theorem draw_point_infront_20_30 :
  draw_point (point_request 20 30) "A"
  = Ok (point_cmds (350, 1769 / 10) (350, 6296 / 10) "A")
  /\ draw_point (point_request 30 30) "A"
     = Ok (point_cmds (350, 1769 / 10) (350, 6109 / 10) "A")
  /\ IZR XY_Y = 450
  /\ 6109 / 10 - IZR XY_Y < 6296 / 10 - IZR XY_Y.
Proof.
  assert (Hm : forall y, y <= 100 -> py_max y [30; 100] = 100).
  { intros y Hy. unfold py_max; simpl.
    apply Rmax_right, Rmax_lub; lra. }
  repeat split.
  - rewrite (draw_point_num _ _ 20 30) by reflexivity.
    cbv zeta. rewrite Hm by lra. do 2 f_equal; f_equal; lra.
  - rewrite (draw_point_num _ _ 30 30) by reflexivity.
    cbv zeta. rewrite Hm by lra. do 2 f_equal; f_equal; lra.
  - lra.
Qed.

(** ** Reading a drawing *)

Lemma construction_segments_app (a b : list cmd) :
  construction_segments (a ++ b)
  = construction_segments a ++ construction_segments b.
Proof.
  induction a as [| c a IH]; [reflexivity |].
  destruct c as [pts w | | | |]; simpl; auto.
  destruct pts as [| x [| y [| z pts]]]; auto.
  destruct (w =? LINE_CONST)%Z; simpl; now rewrite IH.
Qed.

Lemma outlines_app (w : Z) (a b : list cmd) :
  outlines w (a ++ b) = outlines w a ++ outlines w b.
Proof.
  induction a as [| c a IH]; [reflexivity |].
  destruct c as [pts w' | | | |]; simpl; auto.
  destruct (w' =? w)%Z; simpl; now rewrite IH.
Qed.

Lemma info_lines_no_line (x y : R) (ls : list text) :
  construction_segments (info_lines x y ls) = []
  /\ forall w, outlines w (info_lines x y ls) = [].
Proof.
  revert y. induction ls as [| l ls IH]; intros y; simpl; [auto |].
  destruct (IH (y + 18)) as [H1 H2]. auto.
Qed.

(** The info panel is a frame and text: it holds no segment. *)
Lemma info_panel_no_line (ls : list text) :
  construction_segments (draw_info_panel ls) = []
  /\ forall w, outlines w (draw_info_panel ls) = [].
Proof. unfold draw_info_panel. simpl. apply info_lines_no_line. Qed.

Lemma info_lines_length (x y : R) (ls : list text) :
  List.length (info_lines x y ls) = List.length ls.
Proof.
  revert y. induction ls as [| l ls IH]; intros y; simpl;
    [reflexivity | now rewrite IH].
Qed.

Lemma info_panel_length (ls : list text) :
  List.length (draw_info_panel ls) = S (List.length ls).
Proof.
  unfold draw_info_panel. cbn [List.length]. now rewrite info_lines_length.
Qed.

(** ** Line *)

(** The extent used for scaling a line is at least the 150 mm floor, so
    the scale is always [374 / (2.2 max_mm)]. *)
Lemma draw_line_returns (p : params) :
  exists (cmds : list cmd) (A_front B_front A_top B_top : pt),
    draw_line p = Ok cmds
    /\ List.length cmds = 18%nat
    /\ outlines LINE_HP cmds = [[A_front; B_front]]
    /\ outlines LINE_VP cmds = [[A_top; B_top]]
    /\ construction_segments cmds = [(A_front, A_top); (B_front, B_top)].
Proof.
  unfold draw_line. cbn [apparent_length py_float bind].
  match goal with
  | |- context [fit_scale_for_box (py_max ?x ?xs * ?k) FRONT_BOX] =>
      assert (Hm : 150 <= py_max x xs) by (apply py_max_in; simpl; tauto);
      rewrite (fit_scale_front (py_max x xs * k)) by lra
  end.
  cbn [bind].
  do 5 eexists. split; [reflexivity |].
  split; [reflexivity |].
  rewrite !outlines_app, construction_segments_app.
  match goal with
  | |- context [draw_info_panel ?ls] =>
      destruct (info_panel_no_line ls) as [-> ->]
  end.
  repeat split.
Qed.


Lemma line_attr_nonzero (r d : R) :
  r <> 0 -> py_or_num (get_default (Num r) d) d = r.
Proof. intros Hr. simpl. now apply py_or_num_nonzero. Qed.

(** C4 (as amended).  [draw_line] performs no validation of its numeric
    input: for every request, whatever the sign or size of the length and
    angles, it raises nothing and issues its complete drawing of 18
    commands: the front and the top segment, their end markers and
    labels, the two projectors and the info panel. *)
Theorem draw_line_never_rejects (p : params) :
  exists cmds : list cmd,
    draw_line p = Ok cmds
    /\ List.length cmds = 18%nat
    /\ List.length (outlines LINE_HP cmds) = 1%nat
    /\ List.length (outlines LINE_VP cmds) = 1%nat
    /\ List.length (construction_segments cmds) = 2%nat.
Proof.
  destruct (draw_line_returns p)
    as (cmds & Af & Bf & At & Bt & H & Hlen & Hf & Ht & Hc).
  exists cmds. rewrite Hf, Ht, Hc. auto.
Qed.

(** C4, counterexample.  The request with [true_length = -80] is not
    rejected: [draw_line] returns a drawing of 18 commands, whose info
    panel reports the negative length as given. *)
Lemma negative_line_is_drawn :
  exists cmds : list cmd,
    draw_line negative_line = Ok cmds
    /\ List.length cmds = 18%nat
    /\ nth_error cmds 13
       = Some (Text (718, 44) [Lit "True length L = "; Fix2 (- 80); Lit " mm"])
    /\ forall e, draw_line negative_line <> Raise e.
Proof.
  assert (HL : py_or_num (get_default (true_length negative_line) 80) 80 = - 80)
    by (apply line_attr_nonzero; lra).
  unfold draw_line. rewrite HL. cbn [apparent_length py_float bind].
  match goal with
  | |- context [fit_scale_for_box (py_max ?x ?xs * ?k) FRONT_BOX] =>
      assert (Hm : 150 <= py_max x xs) by (apply py_max_in; simpl; tauto);
      rewrite (fit_scale_front (py_max x xs * k)) by lra
  end.
  cbn [bind]. eexists. split; [reflexivity |].
  split; [reflexivity |]. split; [reflexivity |].
  intros e He. discriminate He.
Qed.

(** ** Zero, [None] and missing attributes *)



(** ** Lamina *)

Lemma py_or_some (v : option R) (d : R) : exists r, py_or v (Some d) = Some r.
Proof.
  unfold py_or. destruct v as [r |]; simpl; [| eauto].
  destruct (Req_dec_T r 0); eauto.
Qed.

(** The size selection always yields a number. *)
Lemma lamina_size_some (p : params) : exists s, lamina_size p = Some s.
Proof. apply py_or_some. Qed.

(** ** Bounding boxes *)

Lemma draw_rectangle_ok (x0 y0 x1 y1 : R) (w : Z) :
  x0 <= x1 -> y0 <= y1 ->
  draw_rectangle x0 y0 x1 y1 w = Ok (Rectangle x0 y0 x1 y1 w).
Proof.
  intros Hx Hy. unfold draw_rectangle.
  destruct (Rlt_dec x1 x0); [lra |].
  destruct (Rlt_dec y1 y0); [lra | reflexivity].
Qed.

Lemma draw_rectangle_reversed (x0 y0 x1 y1 : R) (w : Z) :
  x1 < x0 \/ y1 < y0 -> draw_rectangle x0 y0 x1 y1 w = Raise ValueError.
Proof.
  intros H. unfold draw_rectangle.
  destruct (Rlt_dec x1 x0); [reflexivity |].
  destruct (Rlt_dec y1 y0); [reflexivity | lra].
Qed.


Lemma draw_ellipse_ok (x0 y0 x1 y1 : R) (w : Z) :
  x0 <= x1 -> y0 <= y1 ->
  draw_ellipse x0 y0 x1 y1 w = Ok (Ellipse x0 y0 x1 y1 w).
Proof.
  intros Hx Hy. unfold draw_ellipse.
  destruct (Rlt_dec x1 x0); [lra |].
  destruct (Rlt_dec y1 y0); [lra | reflexivity].
Qed.



(** The boxes that do not depend on the request are never reversed: the
    frame of the info panel, and the markers [c - k, c + k] of
    [draw_point] and [draw_line]. *)
Lemma info_panel_frame_accepted :
  draw_rectangle (IZR (box_left INFO_BOX)) (IZR (box_top INFO_BOX))
                 (IZR (box_right INFO_BOX)) (IZR (box_bottom INFO_BOX)) 1
  = Ok (Rectangle 710 36 1364 864 1).
Proof. apply draw_rectangle_ok; simpl; lra. Qed.

Lemma marker_accepted (x y k : R) (w : Z) :
  0 <= k ->
  draw_ellipse (x - k) (y - k) (x + k) (y + k) w
  = Ok (Ellipse (x - k) (y - k) (x + k) (y + k) w).
Proof. intros Hk. apply draw_ellipse_ok; lra. Qed.

Lemma centred_le (c d : R) : 0 <= d -> c - d <= c + d.
Proof. lra. Qed.




Lemma lamina_scale_pos (s : R) : 0 < lamina_scale s.
Proof.
  unfold lamina_scale.
  assert (Hm : 100 <= py_max s [100]) by (apply py_max_in; simpl; auto).
  apply Rdiv_lt_0_compat; lra.
Qed.

Lemma lamina_scale_ok (s : R) :
  fit_scale_for_box (py_max s [100] * (22 / 10)) FRONT_BOX
  = Ok (lamina_scale s).
Proof.
  assert (Hm : 100 <= py_max s [100]) by (apply py_max_in; simpl; auto).
  now rewrite fit_scale_front by lra.
Qed.

Lemma draw_lamina_triangle (p : params) (s sa ea : R) :
  shape p = None \/ shape p = Some "triangle"%string ->
  lamina_size p = Some s ->
  get_default (surface_angle p) 60 = Some sa ->
  get_default (edge_angle_to_VP p) 45 = Some ea ->
  let scale := lamina_scale s in
  let h_f := sqrt 3 / 2 * s * cos (radians sa) in
  let pts_f := [ (350, 233 - h_f / 2);
                 (350 - s / 2 * scale, 233 + h_f / 2);
                 (350 + s / 2 * scale, 233 + h_f / 2) ] in
  let pts_t := map (place_rotated (radians ea) (350, 667)%Z scale)
                   (map (vertex 3 (s / (2 * sin (PI / 3)))) (range 3)) in
  draw_lamina p
  = Ok ([ Line (loop pts_f) LINE_HP; Line (loop pts_t) LINE_VP ]
        ++ segments_between pts_f pts_t
        ++ draw_info_panel
             [[Lit "Triangle side="; Repr s; Lit " mm, surface angle=";
               Repr sa; Lit "° to HP, edge rotated "; Repr ea;
               Lit "° to VP"]]).
Proof.
  intros Hsh Hs Hsa Hea scale h_f pts_f pts_t.
  unfold draw_lamina. fold (lamina_size p).
  rewrite Hs, Hsa, Hea. cbn [py_float bind].
  rewrite lamina_scale_ok. cbn [bind].
  rewrite regular_polygon_vertices_eq.
  destruct Hsh as [-> | ->]; reflexivity.
Qed.



Lemma draw_lamina_polygon (p : params) (sh : string) (s sa ea : R) :
  shape p = Some sh ->
  sh = "pentagon"%string \/ sh = "hexagon"%string \/ sh = "polygon"%string ->
  lamina_size p = Some s ->
  get_default (surface_angle p) 60 = Some sa ->
  get_default (edge_angle_to_VP p) 45 = Some ea ->
  let scale := lamina_scale s in
  let n := polygon_sides sh in
  let pts := map (vertex n (s / (2 * sin (PI / IZR n)))) (range n) in
  let pts_f :=
    map (fun q : pt =>
           (350 + fst q * scale, 233 + snd q * cos (radians sa) * scale))
        pts in
  let pts_t := map (place_rotated (radians ea) (350, 667)%Z scale) pts in
  draw_lamina p
  = Ok ([ Line (loop pts_f) LINE_HP; Line (loop pts_t) LINE_VP ]
        ++ segments_between pts_f pts_t
        ++ draw_info_panel
             [[Lit (capitalize sh); Lit " side="; Repr s;
               Lit " mm, surface angle="; Repr sa; Lit "°"]]).
Proof.
  intros Hsh Hcase Hs Hsa Hea scale n pts pts_f pts_t.
  unfold draw_lamina. fold (lamina_size p).
  rewrite Hsh, Hs, Hsa, Hea. cbn [py_float bind].
  rewrite lamina_scale_ok. cbn [bind].
  subst pts_t pts_f pts n.
  destruct Hcase as [-> | [-> | ->]];
    cbv iota beta delta [String.eqb Ascii.eqb Bool.eqb orb polygon_sides];
    rewrite regular_polygon_vertices_eq; reflexivity.
Qed.


Lemma eqb_not_in (x y : string) (l : list string) :
  ~ In x (y :: l) -> (x =? y)%string = false /\ ~ In x l.
Proof.
  intros H. split.
  - apply String.eqb_neq. intros ->. apply H. now left.
  - intros Hin. apply H. now right.
Qed.

Lemma draw_lamina_unrecognized (p : params) (sh : string) :
  shape p = Some sh -> ~ In sh lamina_shapes ->
  draw_lamina p = Ok (draw_info_panel [[Lit "Shape not recognized for lamina."]]).
Proof.
  intros Hsh Hnot. unfold draw_lamina. fold (lamina_size p).
  destruct (lamina_size_some p) as [s ->]. rewrite Hsh. cbn [py_float bind].
  rewrite lamina_scale_ok. cbn [bind].
  unfold lamina_shapes in Hnot.
  repeat match type of Hnot with
         | ~ In _ (_ :: _) =>
             apply eqb_not_in in Hnot; destruct Hnot as [-> Hnot]
         end.
  reflexivity.
Qed.

Lemma draw_prism_unrecognized (p : params) (ty : string) :
  solid_type p = Some ty -> ~ In ty solid_types ->
  draw_prism p = Ok (draw_info_panel [[Lit "Solid type not yet implemented."]]).
Proof.
  intros Hty Hnot. unfold draw_prism. rewrite Hty.
  unfold solid_types in Hnot.
  repeat match type of Hnot with
         | ~ In _ (_ :: _) =>
             apply eqb_not_in in Hnot; destruct Hnot as [-> Hnot]
         end.
  reflexivity.
Qed.

(** C5.  A lamina whose shape, or a solid whose type, is not one the
    routines know is not an error: [draw_lamina] / [draw_prism] raise
    nothing and issue exactly the info panel (its frame and one line of
    text) carrying the diagnostic message, and no other command. *)
Theorem unrecognized_variant_is_diagnostic (p : params) (name : string) :
  (shape p = Some name -> ~ In name lamina_shapes ->
   draw_lamina p
   = Ok [ Rectangle 710 36 1364 864 1;
          Text (718, 44) [Lit "Shape not recognized for lamina."] ])
  /\ (solid_type p = Some name -> ~ In name solid_types ->
      draw_prism p
      = Ok [ Rectangle 710 36 1364 864 1;
             Text (718, 44) [Lit "Solid type not yet implemented."] ]).
Proof.
  split; intros Hname Hnot.
  - now rewrite (draw_lamina_unrecognized p name).
  - now rewrite (draw_prism_unrecognized p name).
Qed.

Lemma unrecognized_variant_is_diagnostic_witness :
  draw_lamina rhombus_request
  = Ok [ Rectangle 710 36 1364 864 1;
         Text (718, 44) [Lit "Shape not recognized for lamina."] ]
  /\ draw_prism sphere_request
     = Ok [ Rectangle 710 36 1364 864 1;
            Text (718, 44) [Lit "Solid type not yet implemented."] ].
Proof.
  split.
  - apply (proj1 (unrecognized_variant_is_diagnostic rhombus_request "rhombus")).
    + reflexivity.
    + simpl. intros H. repeat destruct H as [H | H]; try discriminate H.
      exact H.
  - apply (proj2 (unrecognized_variant_is_diagnostic sphere_request "sphere")).
    + reflexivity.
    + simpl. intros H. repeat destruct H as [H | H]; try discriminate H.
      exact H.
Defined.

(** ** The triangular lamina of side 30 at 60 degrees *)

Lemma lamina_size_num (p : params) (r : R) :
  size p = Num r -> r <> 0 -> lamina_size p = Some r.
Proof.
  intros Hsz Hr. unfold lamina_size. rewrite Hsz. simpl.
  unfold py_or. now rewrite !truthy_nonzero.
Qed.

Lemma lamina_scale_small (s : R) : s <= 100 -> lamina_scale s = 17 / 10.
Proof.
  intros Hs. unfold lamina_scale, py_max. simpl.
  rewrite Rmax_right by assumption. field.
Qed.

(** Placing plan points in the top view multiplies distances by the
    scale: the in-plane rotation preserves them. *)
Lemma placed_distance (theta : R) (c : Z * Z) (scale : R) (a b : pt) :
  0 <= scale ->
  distance (place_rotated theta c scale a) (place_rotated theta c scale b)
  = scale * distance a b.
Proof.
  intros Hs. destruct a as [ax ay], b as [bx by']. unfold distance; simpl.
  assert (H := sin2_cos2 theta). unfold Rsqr in H.
  set (cs := cos theta) in *. set (sn := sin theta) in *.
  match goal with
  | |- sqrt ?X = _ =>
      replace X with (scale * scale
                      * ((ax - bx) * (ax - bx) + (ay - by') * (ay - by')))
  end.
  - rewrite sqrt_mult_alt by nra. now rewrite sqrt_square.
  - transitivity (scale * scale
                  * (((ax - bx) * (ax - bx) + (ay - by') * (ay - by'))
                     * (sn * sn + cs * cs))); [rewrite H; ring | ring].
Qed.

(** Its top view is an equilateral triangle of side 30 mm at the derived
    scale 1.7 px/mm. *)
Lemma triangle_30_60_top_view :
  exists (cmds : list cmd) (t0 t1 t2 : pt),
    draw_lamina triangle_30_60 = Ok cmds
    /\ outlines LINE_VP cmds = [[t0; t1; t2; t0]]
    /\ distance t0 t1 = 30 * (17 / 10)
    /\ distance t1 t2 = 30 * (17 / 10)
    /\ distance t2 t0 = 30 * (17 / 10).
Proof.
  assert (H3 : (3 <= 3)%Z) by lia. assert (H30 : 0 < 30) by lra.
  do 4 eexists. split.
  - apply (draw_lamina_triangle triangle_30_60 30 60 45);
      [ now right | apply lamina_size_num; [reflexivity | lra]
      | reflexivity | reflexivity ].
  - rewrite lamina_scale_small by lra.
    split; [reflexivity |].
    rewrite !placed_distance by lra.
    set (r := 30 / (2 * sin (PI / 3))).
    assert (Hlt : forall i, (i < 3)%nat -> (i < Z.to_nat 3)%nat)
      by (intros i Hi; exact Hi).
    assert (S0 : distance (vertex 3 r 0) (vertex 3 r 1) = 30)
      by exact (vertex_step 3 30 0 H3 H30 (Hlt 0%nat ltac:(lia))).
    assert (S1 : distance (vertex 3 r 1) (vertex 3 r 2) = 30)
      by exact (vertex_step 3 30 1 H3 H30 (Hlt 1%nat ltac:(lia))).
    assert (S2 : distance (vertex 3 r 2) (vertex 3 r 0) = 30)
      by exact (vertex_step 3 30 2 H3 H30 (Hlt 2%nat ltac:(lia))).
    change (Z.of_nat 0) with 0%Z. change (Z.of_nat 1) with 1%Z.
    change (Z.of_nat 2) with 2%Z.
    rewrite S0, S1, S2. repeat split; ring.
Qed.

(** C3.  [draw_lamina] evaluated at triangle, side 30, surface angle 60.
    The scale is 1.7 px/mm and the front triangle is 30 * 1.7 = 51 px
    wide, but its height is [(30 sqrt 3 / 2) cos 60] pixels: the
    foreshortened height in millimetres is used as a pixel count, without
    the factor 1.7 that every other extent of the drawing carries. *)
Theorem triangle_30_60_front_view :
  exists (cmds : list cmd) (f0 f1 f2 : pt),
    draw_lamina triangle_30_60 = Ok cmds
    /\ outlines LINE_HP cmds = [[f0; f1; f2; f0]]
    /\ lamina_scale 30 = 17 / 10
    /\ fst f2 - fst f1 = 30 * (17 / 10)
    /\ snd f1 = snd f2
    /\ snd f1 - snd f0 = 30 * sqrt 3 / 2 * cos (radians 60)
    /\ snd f1 - snd f0 <> 30 * sqrt 3 / 2 * cos (radians 60) * (17 / 10).
Proof.
  do 4 eexists. split.
  - apply (draw_lamina_triangle triangle_30_60 30 60 45);
      [ now right | apply lamina_size_num; [reflexivity | lra]
      | reflexivity | reflexivity ].
  - rewrite lamina_scale_small by lra.
    split; [reflexivity |]. cbn [fst snd].
    rewrite radians_60, cos_PI3.
    assert (H3 : 0 < sqrt 3) by (apply sqrt_lt_R0; lra).
    repeat split; try lra.
Qed.

(** ** A zero size *)







(** ** Solids *)

Lemma Int_part_IZR (z : Z) : Int_part (IZR z) = z.
Proof. symmetry. apply Int_part_spec. lra. Qed.

Lemma py_int_IZR (z : Z) : py_int (IZR z) = z.
Proof.
  unfold py_int. destruct (Rle_dec 0 (IZR z)).
  - apply Int_part_IZR.
  - rewrite <- opp_IZR, Int_part_IZR. lia.
Qed.

Lemma fit_scale_for_box_ok (m : R) (b : box) :
  exists s, fit_scale_for_box m b = Ok s.
Proof.
  destruct (Req_dec_T m 0) as [-> | Hm].
  - rewrite fit_scale_zero. eauto.
  - rewrite fit_scale_nonzero by assumption. eauto.
Qed.

Lemma range_head (n : Z) : (3 <= n)%Z -> exists tl, range n = 0%Z :: tl.
Proof.
  intros Hn. unfold range.
  destruct (Z.to_nat n) as [| k] eqn:E; [lia |].
  simpl. eauto.
Qed.




Lemma mapM_dev_face_ok (dx dy fw fh : R) (l : list Z) :
  0 <= fw -> 0 <= fh ->
  mapM (draw_dev_face dx dy fw fh) l = Ok (map (dev_face dx dy fw fh) l).
Proof.
  intros Hw Hh. induction l as [| i l IH]; [reflexivity |].
  cbn [mapM map]. unfold draw_dev_face at 1.
  rewrite draw_rectangle_ok by lra. cbn [bind]. rewrite IH. reflexivity.
Qed.



Lemma clamp_is_max (n : Z) : (if (n <? 3)%Z then 3%Z else n) = Z.max n 3.
Proof. destruct (Z.ltb_spec n 3); lia. Qed.

Lemma closed_nonempty (pts : list pt) :
  (0 < List.length pts)%nat -> closed pts = Ok (loop pts).
Proof.
  destruct pts as [| a l]; simpl; [lia | reflexivity].
Qed.

Lemma fold_Rmin_upper (xs : list R) (x : R) : fold_left Rmin xs x <= x.
Proof.
  revert x. induction xs as [| y ys IH]; intros x; simpl; [lra |].
  eapply Rle_trans; [apply IH | apply Rmin_l].
Qed.

Lemma bbox_width_nonneg (xs : list R) : 0 <= bbox_width xs.
Proof.
  destruct xs as [| x rest]; simpl; [lra |].
  pose proof (py_max_lower x rest). pose proof (fold_Rmin_upper rest x). lra.
Qed.

Lemma max_min_width (xs : list R) :
  (0 < List.length xs)%nat ->
  exists hi lo : R,
    max_of xs = Ok hi /\ min_of xs = Ok lo /\ hi - lo = bbox_width xs.
Proof.
  destruct xs as [| x rest]; simpl; [lia |]. intros _.
  do 2 eexists. repeat split.
Qed.



(** The prism branch on [sizes = [n, side, height, ...]] up to its
    development loop: with a height and a scale that are not negative the
    elevation rectangle is well formed. *)
Lemma draw_prism_front (p : params) (a side height scale : R)
  (rest : list R) :
  solid_type p = None \/ solid_type p = Some "prism"%string ->
  sizes p = Some (a :: side :: height :: rest) ->
  fit_scale_for_box (py_max (side * 2) [height] * 3) FRONT_BOX = Ok scale ->
  0 <= scale -> 0 <= height ->
  let n := py_int a in
  let m := Z.max n 3 in
  let poly := map (vertex m (side / (2 * sin (PI / IZR m)))) (range m) in
  let pts_t :=
    map (fun q : pt => (350 + fst q * scale, 667 + snd q * scale)) poly in
  let w_px := bbox_width (map fst poly) * scale in
  let h_px := height * scale in
  draw_prism p
  = (faces <-
       mapM (draw_dev_face 730 36 (side * scale) (height * scale)) (range n) ;;
     Ok (draw_info_panel
           [ [Lit "Regular prism n="; ReprZ n; Lit ", side="; Repr side;
              Lit " mm, height="; Repr height; Lit " mm"];
             [Lit "Lateral development shown below"] ]
         ++ [ Line (loop pts_t) LINE_VP;
              Rectangle (350 - w_px / 2) (233 - h_px / 2)
                        (350 + w_px / 2) (233 + h_px / 2) LINE_HP ]
         ++ faces)).
Proof.
  intros Hty Hsz Hfit Hscale Hheight n m poly pts_t w_px h_px.
  unfold draw_prism. rewrite Hsz.
  assert (Htyp : match solid_type p with
                 | Some t => t
                 | None => "prism"%string
                 end = "prism"%string)
    by (destruct Hty as [-> | ->]; reflexivity).
  rewrite Htyp.
  cbv beta iota zeta delta [String.eqb Ascii.eqb Bool.eqb].
  rewrite Hfit. cbn [bind].
  rewrite regular_polygon_vertices_eq. cbv zeta. rewrite clamp_is_max.
  fold n. fold m. fold poly. cbn [bind].
  assert (Hm : (3 <= m)%Z) by (unfold m; lia).
  assert (Hlen : List.length poly = Z.to_nat m)
    by (unfold poly; now rewrite length_map, range_length).
  rewrite closed_nonempty by (rewrite length_map; lia). cbn [bind].
  assert (Hxs : (0 < List.length (map fst poly))%nat)
    by (unfold poly; rewrite !length_map, range_length; lia).
  destruct (max_min_width (map fst poly) Hxs) as (hi & lo & -> & -> & Hw).
  cbn [bind]. rewrite Hw. fold w_px.
  pose proof (bbox_width_nonneg (map fst poly)) as Hbox.
  rewrite draw_rectangle_ok;
    [| apply centred_le; unfold w_px; nra | apply centred_le; nra].
  reflexivity.
Qed.

(** The same with a side that is not negative either: every face of the
    development is well formed. *)
Lemma draw_prism_regular (p : params) (a side height scale : R)
  (rest : list R) :
  solid_type p = None \/ solid_type p = Some "prism"%string ->
  sizes p = Some (a :: side :: height :: rest) ->
  fit_scale_for_box (py_max (side * 2) [height] * 3) FRONT_BOX = Ok scale ->
  0 <= scale -> 0 <= side -> 0 <= height ->
  let n := py_int a in
  let m := Z.max n 3 in
  let poly := map (vertex m (side / (2 * sin (PI / IZR m)))) (range m) in
  let pts_t :=
    map (fun q : pt => (350 + fst q * scale, 667 + snd q * scale)) poly in
  let w_px := bbox_width (map fst poly) * scale in
  let h_px := height * scale in
  draw_prism p
  = Ok (draw_info_panel
          [ [Lit "Regular prism n="; ReprZ n; Lit ", side="; Repr side;
             Lit " mm, height="; Repr height; Lit " mm"];
            [Lit "Lateral development shown below"] ]
        ++ [ Line (loop pts_t) LINE_VP;
             Rectangle (350 - w_px / 2) (233 - h_px / 2)
                       (350 + w_px / 2) (233 + h_px / 2) LINE_HP ]
        ++ map (dev_face 730 36 (side * scale) (height * scale)) (range n)).
Proof.
  intros Hty Hsz Hfit Hscale Hside Hheight n m poly pts_t w_px h_px.
  pose proof (draw_prism_front p a side height scale rest Hty Hsz Hfit
                Hscale Hheight) as E.
  cbv zeta in E. rewrite E.
  rewrite mapM_dev_face_ok by nra. reflexivity.
Qed.

Lemma draw_prism_5_30_80 :
  let scale := prism_scale in
  let poly := map (vertex 5 (30 / (2 * sin (PI / 5)))) (range 5) in
  let pts_t :=
    map (fun q : pt => (350 + fst q * scale, 667 + snd q * scale)) poly in
  let w_px := bbox_width (map fst poly) * scale in
  let h_px := 80 * scale in
  draw_prism prism_5_30_80
  = Ok (draw_info_panel
          [ [Lit "Regular prism n="; ReprZ 5; Lit ", side="; Repr 30;
             Lit " mm, height="; Repr 80; Lit " mm"];
            [Lit "Lateral development shown below"] ]
        ++ [ Line (loop pts_t) LINE_VP;
             Rectangle (350 - w_px / 2) (233 - h_px / 2)
                       (350 + w_px / 2) (233 + h_px / 2) LINE_HP ]
        ++ map (dev_face 730 36 (30 * scale) (80 * scale)) (range 5)).
Proof.
  intros scale poly pts_t w_px h_px.
  assert (Hfit : fit_scale_for_box (py_max (30 * 2) [80] * 3) FRONT_BOX
                 = Ok scale).
  { assert (Hmax : py_max (30 * 2) [80] = 80) by (rmax; reflexivity).
    rewrite Hmax, fit_scale_front by lra.
    f_equal. unfold scale, prism_scale. field. }
  assert (Hs : 0 <= scale) by (unfold scale, prism_scale; lra).
  pose proof (draw_prism_regular prism_5_30_80 5 30 80 scale []
                (or_intror eq_refl) eq_refl Hfit Hs) as E.
  cbv zeta in E. rewrite (py_int_IZR 5) in E.
  change (Z.max 5 3) with 5%Z in E.
  apply E; lra.
Qed.

Lemma scaled_distance (cx cy scale : R) (a b : pt) :
  0 <= scale ->
  distance (cx + fst a * scale, cy + snd a * scale)
           (cx + fst b * scale, cy + snd b * scale)
  = scale * distance a b.
Proof.
  intros Hs. destruct a as [ax ay], b as [bx by']. unfold distance; simpl.
  match goal with
  | |- sqrt ?X = _ =>
      replace X with (scale * scale
                      * ((ax - bx) * (ax - bx) + (ay - by') * (ay - by')))
        by ring
  end.
  rewrite sqrt_mult_alt by nra. now rewrite sqrt_square.
Qed.

Lemma centred_distance (cx cy scale : R) (a : pt) :
  0 <= scale ->
  distance (cx + fst a * scale, cy + snd a * scale) (cx, cy)
  = scale * distance a (0, 0).
Proof.
  intros Hs. rewrite <- (scaled_distance cx cy scale a (0, 0)) by assumption.
  cbn [fst snd]. do 2 f_equal; ring.
Qed.

Lemma vertex_on_circle (n : Z) (radius : R) (i : Z) :
  0 <= radius -> distance (vertex n radius i) (0, 0) = radius.
Proof. intros Hr. unfold vertex. now apply distance_from_origin. Qed.

(** C7 (as amended).  For the prism [5, 30, 80] the drawing is made at
    the single scale 187/120 px/mm: the top view is a closed pentagon
    whose five vertices lie on one circle about the top-box centre and
    whose five sides all measure 30 mm, the front view is a rectangle as
    wide as the plan bounding box and 80 mm high, and the development is
    five rectangles of 30 mm by 80 mm starting 730 px from the left, to
    the right of both view boxes, each placed 6 pixels after the right
    edge of the previous one. *)
Theorem prism_5_30_80_drawing :
  exists (cmds : list cmd) (t0 t1 t2 t3 t4 : pt) (plan : list pt),
    draw_prism prism_5_30_80 = Ok cmds
    /\ regular_polygon_vertices 5 30 = Ok plan
    /\ outlines LINE_VP cmds = [[t0; t1; t2; t3; t4; t0]]
    /\ (distance t0 t1 = 30 * prism_scale
        /\ distance t1 t2 = 30 * prism_scale
        /\ distance t2 t3 = 30 * prism_scale
        /\ distance t3 t4 = 30 * prism_scale
        /\ distance t4 t0 = 30 * prism_scale)
    /\ Forall (fun t : pt =>
                 distance t (350, 667)
                 = 30 / (2 * sin (PI / 5)) * prism_scale)
              [t0; t1; t2; t3; t4]
    /\ rectangles LINE_HP cmds
       = [ (350 - bbox_width (map fst plan) * prism_scale / 2,
            233 - 80 * prism_scale / 2);
           (350 + bbox_width (map fst plan) * prism_scale / 2,
            233 - 80 * prism_scale / 2);
           (350 + bbox_width (map fst plan) * prism_scale / 2,
            233 + 80 * prism_scale / 2);
           (350 - bbox_width (map fst plan) * prism_scale / 2,
            233 + 80 * prism_scale / 2) ]
         :: map (fun i : Z =>
                   corners (730 + IZR i * (30 * prism_scale + 6)) 36
                           (30 * prism_scale) (80 * prism_scale))
                [0; 1; 2; 3; 4]%Z
    /\ IZR (box_right FRONT_BOX) < 730
    /\ IZR (box_right TOP_BOX) < 730.
Proof.
  assert (H5 : (3 <= 5)%Z) by lia. assert (H30 : 0 < 30) by lra.
  do 7 eexists. split; [apply draw_prism_5_30_80 |].
  split; [apply (regular_polygon_vertices_eq 5 30) |].
  split; [reflexivity |].
  split.
  - set (r := 30 / (2 * sin (PI / 5))).
    assert (Hlt : forall i, (i < 5)%nat -> (i < Z.to_nat 5)%nat)
      by (intros i Hi; exact Hi).
    assert (S0 : distance (vertex 5 r 0) (vertex 5 r 1) = 30)
      by exact (vertex_step 5 30 0 H5 H30 (Hlt 0%nat ltac:(lia))).
    assert (S1 : distance (vertex 5 r 1) (vertex 5 r 2) = 30)
      by exact (vertex_step 5 30 1 H5 H30 (Hlt 1%nat ltac:(lia))).
    assert (S2 : distance (vertex 5 r 2) (vertex 5 r 3) = 30)
      by exact (vertex_step 5 30 2 H5 H30 (Hlt 2%nat ltac:(lia))).
    assert (S3 : distance (vertex 5 r 3) (vertex 5 r 4) = 30)
      by exact (vertex_step 5 30 3 H5 H30 (Hlt 3%nat ltac:(lia))).
    assert (S4 : distance (vertex 5 r 4) (vertex 5 r 0) = 30)
      by exact (vertex_step 5 30 4 H5 H30 (Hlt 4%nat ltac:(lia))).
    assert (Hs : 0 <= prism_scale) by (unfold prism_scale; lra).
    rewrite !scaled_distance by assumption.
    change (Z.of_nat 0) with 0%Z. change (Z.of_nat 1) with 1%Z.
    change (Z.of_nat 2) with 2%Z. change (Z.of_nat 3) with 3%Z.
    change (Z.of_nat 4) with 4%Z.
    rewrite S0, S1, S2, S3, S4. repeat split; ring.
  - assert (Hs : 0 <= prism_scale) by (unfold prism_scale; lra).
    assert (Hr : 0 <= 30 / (2 * sin (PI / 5))).
    { left. apply Rdiv_lt_0_compat; [lra |].
      assert (H := sin_pi_over_n_pos 5 H5). lra. }
    split.
    { repeat constructor;
        rewrite centred_distance, vertex_on_circle by assumption; ring. }
    split; [reflexivity |].
    change (IZR (box_right FRONT_BOX)) with 664.
    change (IZR (box_right TOP_BOX)) with 664. lra.
Qed.

(** C7, counterexample.  The faces of the development do not touch:
    face 0 spans the abscissas [730 .. 730 + 30 * scale], face 1 starts at
    [730 + (30 * scale + 6)], that is 6 pixels after the right edge of
    face 0. *)
Lemma prism_faces_are_spaced :
  exists cmds : list cmd,
    draw_prism prism_5_30_80 = Ok cmds
    /\ nth_error (rectangles LINE_HP cmds) 1
       = Some (corners (730 + 0 * (30 * prism_scale + 6)) 36
                       (30 * prism_scale) (80 * prism_scale))
    /\ nth_error (rectangles LINE_HP cmds) 2
       = Some (corners (730 + 1 * (30 * prism_scale + 6)) 36
                       (30 * prism_scale) (80 * prism_scale))
    /\ (730 + 1 * (30 * prism_scale + 6))
       - (730 + 0 * (30 * prism_scale + 6) + 30 * prism_scale) = 6
    /\ 730 + 1 * (30 * prism_scale + 6)
       <> 730 + 0 * (30 * prism_scale + 6) + 30 * prism_scale.
Proof.
  eexists. split; [apply draw_prism_5_30_80 |].
  split; [reflexivity |]. split; [reflexivity |]. split; lra.
Qed.

(** ** Projectors *)







(** * Further properties *)

(** ** The info panel *)

Lemma info_lines_nth (x y : R) (lines : list text) (i : nat) (l : text) :
  nth_error lines i = Some l ->
  nth_error (info_lines x y lines) i = Some (Text (x, y + 18 * INR i) l).
Proof.
  revert y i. induction lines as [| l0 rest IH]; intros y i Hi.
  - destruct i; discriminate Hi.
  - destruct i as [| i].
    + injection Hi as ->. simpl. do 3 f_equal. lra.
    + cbn [info_lines nth_error]. rewrite (IH (y + 18) i Hi).
      do 3 f_equal. rewrite S_INR. ring.
Qed.

(** X1.  The panel is its frame followed by one text command per line of the
    message, line [i] being written at [(718, 44 + 18 i)]: the rows are
    18 pixels apart whatever their number, also past the bottom of the
    frame. *)
Theorem info_panel_layout (lines : list text) (i : nat) (l : text) :
  nth_error lines i = Some l ->
  List.length (draw_info_panel lines) = S (List.length lines)
  /\ nth_error (draw_info_panel lines) 0 = Some (Rectangle 710 36 1364 864 1)
  /\ nth_error (draw_info_panel lines) (S i)
     = Some (Text (718, 44 + 18 * INR i) l).
Proof.
  intros Hi. split; [apply info_panel_length |]. split; [reflexivity |].
  unfold draw_info_panel. cbn [nth_error].
  rewrite (info_lines_nth _ _ lines i l Hi). reflexivity.
Qed.

Lemma info_panel_layout_witness :
  nth_error (draw_info_panel [[Lit "a"]; [Lit "b"]; [Lit "c"]]) 3
  = Some (Text (718, 44 + 18 * INR 2) [Lit "c"]).
Proof.
  exact (proj2 (proj2 (info_panel_layout
                         [[Lit "a"]; [Lit "b"]; [Lit "c"]] 2 [Lit "c"]
                         eq_refl))).
Defined.

(** ** Fitting into a box *)

Lemma Rabs_bounds (x a : R) : Rabs x <= a -> - a <= x <= a.
Proof. unfold Rabs. destruct (Rcase_abs x); lra. Qed.

(** X2.  [fit_scale_for_box] and [transform_to_box_coords] compose as meant:
    at the scale derived for a positive extent [m], every logical point
    within [m/2] of the origin on both axes lands inside the box, at
    least 10 pixels from each border. *)
Theorem fitted_point_in_box (m x y : R) (b : box) :
  0 < m -> (0 <= usable_w b)%Z -> (0 <= usable_h b)%Z ->
  Rabs x <= m / 2 -> Rabs y <= m / 2 ->
  exists s : R,
    fit_scale_for_box m b = Ok s
    /\ 0 <= s
    /\ IZR (box_left b) + 10
       <= fst (transform_to_box_coords x y b s)
       <= IZR (box_right b) - 10
    /\ IZR (box_top b) + 10
       <= snd (transform_to_box_coords x y b s)
       <= IZR (box_bottom b) - 10.
Proof.
  intros Hm Hw Hh Hx Hy.
  rewrite fit_scale_nonzero by lra. eexists. split; [reflexivity |].
  apply IZR_le in Hw, Hh.
  set (w := IZR (usable_w b)) in *. set (h := IZR (usable_h b)) in *.
  assert (Hwm : 0 <= w / m) by (apply Rmult_le_pos; [lra | left; now apply Rinv_0_lt_compat]).
  assert (Hhm : 0 <= h / m) by (apply Rmult_le_pos; [lra | left; now apply Rinv_0_lt_compat]).
  set (s := Rmin (w / m) (h / m)).
  assert (Hs0 : 0 <= s) by (apply Rmin_glb; assumption).
  assert (Hsw : s * m <= w).
  { replace w with (w / m * m) by (field; lra).
    apply Rmult_le_compat_r; [lra | apply Rbasic_fun.Rmin_l]. }
  assert (Hsh : s * m <= h).
  { replace h with (h / m * m) by (field; lra).
    apply Rmult_le_compat_r; [lra | apply Rbasic_fun.Rmin_r]. }
  apply Rabs_bounds in Hx, Hy.
  assert (Ew : w = IZR (box_right b) - IZR (box_left b) - 20)
    by (unfold w, usable_w; rewrite !minus_IZR; reflexivity).
  assert (Eh : h = IZR (box_bottom b) - IZR (box_top b) - 20)
    by (unfold h, usable_h; rewrite !minus_IZR; reflexivity).
  split; [exact Hs0 |].
  unfold transform_to_box_coords; cbn [fst snd]. rewrite !plus_IZR.
  repeat split; nra.
Qed.

Lemma fitted_point_in_box_witness :
  exists s : R,
    fit_scale_for_box 220 FRONT_BOX = Ok s
    /\ 0 <= s
    /\ IZR (box_left FRONT_BOX) + 10
       <= fst (transform_to_box_coords 110 (- 110) FRONT_BOX s)
       <= IZR (box_right FRONT_BOX) - 10
    /\ IZR (box_top FRONT_BOX) + 10
       <= snd (transform_to_box_coords 110 (- 110) FRONT_BOX s)
       <= IZR (box_bottom FRONT_BOX) - 10.
Proof.
  apply (fitted_point_in_box 220 110 (- 110) FRONT_BOX).
  - lra.
  - vm_compute. discriminate.
  - vm_compute. discriminate.
  - rewrite Rabs_right; lra.
  - rewrite Rabs_left; lra.
Defined.

(** ** Points *)

Lemma get_default_none (a : attr) (d : R) :
  get_default a d = None <-> a = PyNone.
Proof.
  destruct a; simpl; split; intros H; try discriminate H; reflexivity.
Qed.

(** X3.  [draw_point] fails exactly when [infront] or [above] is bound to
    [None] (its [float(None)] raises [TypeError]); a missing key takes
    the default 30 and any float, of either sign, is accepted. *)
Theorem draw_point_error (p : params) (label : string) :
  (infront p = PyNone \/ above p = PyNone
   -> draw_point p label = Raise TypeError)
  /\ (infront p <> PyNone -> above p <> PyNone ->
      exists f t : pt, draw_point p label = Ok (point_cmds f t label)).
Proof.
  split.
  - intros [H | H]; unfold draw_point.
    + rewrite H. reflexivity.
    + destruct (get_default (infront p) 30); [| reflexivity].
      rewrite H. reflexivity.
  - intros Hy Hz.
    destruct (get_default (infront p) 30) as [y |] eqn:Ey;
      [| now apply get_default_none in Ey].
    destruct (get_default (above p) 30) as [z |] eqn:Ez;
      [| now apply get_default_none in Ez].
    do 2 eexists. apply (draw_point_num p label y z Ey Ez).
Qed.

Lemma draw_point_error_witness :
  draw_point (mkParams PyNone Absent Absent Absent Absent None Absent None
                       Absent Absent None) "A"
  = Raise TypeError
  /\ exists f t : pt,
       draw_point no_params "A" = Ok (point_cmds f t "A").
Proof.
  split.
  - apply (proj1 (draw_point_error _ "A")). left. reflexivity.
  - apply (proj2 (draw_point_error no_params "A")); discriminate.
Defined.

(** X4.  For a point in the first quadrant (distances that are not negative)
    both markers are drawn inside their view boxes, on the same vertical
    through the middle of the boxes, the front marker at or above the
    centre of the front box and the top marker at or above the centre of
    the top box. *)
Theorem draw_point_in_boxes (p : params) (label : string) (y z : R) :
  get_default (infront p) 30 = Some y ->
  get_default (above p) 30 = Some z ->
  0 <= y -> 0 <= z ->
  exists f t : pt,
    draw_point p label = Ok (point_cmds f t label)
    /\ fst f = 350 /\ fst t = 350
    /\ in_box FRONT_BOX f /\ in_box TOP_BOX t
    /\ snd f <= 233 /\ snd t <= 667.
Proof.
  intros Ey Ez Hy Hz. do 2 eexists. split.
  - apply (draw_point_num p label y z Ey Ez).
  - cbv zeta. cbn [fst snd].
    assert (Hm : 100 <= py_max y [z; 100]) by (apply py_max_in; simpl; auto).
    assert (Hym : y <= py_max y [z; 100]) by apply py_max_lower.
    assert (Hzm : z <= py_max y [z; 100]) by (apply py_max_in; simpl; auto).
    set (m := py_max y [z; 100]) in *.
    assert (Hinv : 0 < / m) by (apply Rinv_0_lt_compat; lra).
    assert (Hys : 0 <= y * (187 / m) <= 187).
    { split; [apply Rmult_le_pos; [lra | unfold Rdiv; nra] |].
      replace 187 with (m * (187 / m)) at 2 by (field; lra).
      apply Rmult_le_compat_r; [unfold Rdiv; nra | lra]. }
    assert (Hzs : 0 <= z * (187 / m) <= 187).
    { split; [apply Rmult_le_pos; [lra | unfold Rdiv; nra] |].
      replace 187 with (m * (187 / m)) at 2 by (field; lra).
      apply Rmult_le_compat_r; [unfold Rdiv; nra | lra]. }
    unfold in_box; cbn [fst snd].
    change (IZR (box_left FRONT_BOX)) with 36.
    change (IZR (box_right FRONT_BOX)) with 664.
    change (IZR (box_top FRONT_BOX)) with 36.
    change (IZR (box_bottom FRONT_BOX)) with 430.
    change (IZR (box_left TOP_BOX)) with 36.
    change (IZR (box_right TOP_BOX)) with 664.
    change (IZR (box_top TOP_BOX)) with 470.
    change (IZR (box_bottom TOP_BOX)) with 864.
    repeat split; lra.
Qed.

Lemma draw_point_in_boxes_witness :
  exists f t : pt,
    draw_point (point_request 20 30) "A" = Ok (point_cmds f t "A")
    /\ fst f = 350 /\ fst t = 350
    /\ in_box FRONT_BOX f /\ in_box TOP_BOX t
    /\ snd f <= 233 /\ snd t <= 667.
Proof.
  apply (draw_point_in_boxes (point_request 20 30) "A" 20 30);
    [reflexivity | reflexivity | lra | lra].
Defined.

(** ** Lines *)

Lemma scaled_within (c m : R) :
  0 < m -> Rabs c <= m ->
  - 170 <= c * (374 / (m * (22 / 10))) <= 170.
Proof.
  intros Hm Hc. apply Rabs_bounds in Hc.
  set (k := 374 / (m * (22 / 10))).
  assert (Hk : m * k = 170) by (unfold k; field; lra).
  assert (Hk0 : 0 < k).
  { unfold k. apply Rdiv_lt_0_compat; lra. }
  split; nra.
Qed.

(** X5.  Whatever the request, the four ends of the two segments of a line lie
    inside their view boxes, and each projector is vertical: an end has
    the same abscissa in the front and in the top view. *)
Theorem draw_line_in_boxes (p : params) :
  exists (cmds : list cmd) (A_front B_front A_top B_top : pt),
    draw_line p = Ok cmds
    /\ outlines LINE_HP cmds = [[A_front; B_front]]
    /\ outlines LINE_VP cmds = [[A_top; B_top]]
    /\ construction_segments cmds = [(A_front, A_top); (B_front, B_top)]
    /\ fst A_front = fst A_top /\ fst B_front = fst B_top
    /\ in_box FRONT_BOX A_front /\ in_box FRONT_BOX B_front
    /\ in_box TOP_BOX A_top /\ in_box TOP_BOX B_top.
Proof.
  unfold draw_line. cbn [apparent_length py_float bind].
  match goal with
  | |- context [fit_scale_for_box
                  (py_max (Rabs ?ax)
                     [Rabs ?bx; Rabs ?ay; Rabs ?by'; Rabs ?az; Rabs ?bz; ?l; 150]
                   * ?k) FRONT_BOX] =>
      set (m := py_max (Rabs ax)
                  [Rabs bx; Rabs ay; Rabs by'; Rabs az; Rabs bz; l; 150]);
      assert (Hm : 150 <= m) by (apply py_max_in; simpl; tauto);
      assert (Hax : Rabs ax <= m) by apply py_max_lower;
      assert (Hbx : Rabs bx <= m) by (apply py_max_in; simpl; tauto);
      assert (Hay : Rabs ay <= m) by (apply py_max_in; simpl; tauto);
      assert (Hby : Rabs by' <= m) by (apply py_max_in; simpl; tauto);
      assert (Haz : Rabs az <= m) by (apply py_max_in; simpl; tauto);
      assert (Hbz : Rabs bz <= m) by (apply py_max_in; simpl; tauto);
      apply scaled_within in Hax, Hbx, Hay, Hby, Haz, Hbz; try lra
  end.
  rewrite (fit_scale_front (m * (22 / 10))) by lra. cbn [bind].
  do 5 eexists. split; [reflexivity |].
  rewrite !outlines_app, construction_segments_app.
  match goal with
  | |- context [draw_info_panel ?ls] =>
      destruct (info_panel_no_line ls) as [-> ->]
  end.
  split; [reflexivity |]. split; [reflexivity |]. split; [reflexivity |].
  rewrite !transform_front, !transform_top. unfold in_box. cbn [fst snd].
  change (IZR (box_left FRONT_BOX)) with 36.
  change (IZR (box_right FRONT_BOX)) with 664.
  change (IZR (box_top FRONT_BOX)) with 36.
  change (IZR (box_bottom FRONT_BOX)) with 430.
  change (IZR (box_left TOP_BOX)) with 36.
  change (IZR (box_right TOP_BOX)) with 664.
  change (IZR (box_top TOP_BOX)) with 470.
  change (IZR (box_bottom TOP_BOX)) with 864.
  repeat split; lra.
Qed.

(** X6.  The angle to the VP does not enter the construction: two requests
    that differ only in [angle_vp] give the same drawing, command for
    command, apart from the one info line (command 15) that prints the
    apparent length in the front view. *)
Theorem draw_line_ignores_angle_vp (p : params) (a b : attr) :
  exists c1 c2 : list cmd,
    draw_line (set_angle_vp a p) = Ok c1
    /\ draw_line (set_angle_vp b p) = Ok c2
    /\ List.length c1 = List.length c2
    /\ forall i : nat, i <> 15%nat -> nth_error c1 i = nth_error c2 i.
Proof.
  unfold draw_line.
  cbn [true_length angle_hp angle_vp set_angle_vp].
  cbn [apparent_length py_float bind].
  match goal with
  | |- context [fit_scale_for_box (py_max ?x ?xs * ?k) FRONT_BOX] =>
      assert (Hm : 150 <= py_max x xs) by (apply py_max_in; simpl; tauto);
      rewrite (fit_scale_front (py_max x xs * k)) by lra
  end.
  cbn [bind]. do 2 eexists.
  split; [reflexivity |]. split; [reflexivity |]. split; [reflexivity |].
  intros i Hi.
  do 18 (destruct i as [| i]; [first [reflexivity | now destruct Hi] |]).
  destruct i; reflexivity.
Qed.

Lemma py_or_num_never_zero (v : option R) (d : R) :
  d <> 0 -> py_or_num v d <> 0.
Proof.
  intros Hd. unfold py_or_num, py_or, truthy.
  destruct v as [r |]; [| exact Hd].
  destruct (Req_dec_T r 0); assumption.
Qed.

Lemma radians_25_acute : 0 < radians 25 < PI / 2.
Proof. unfold radians. assert (H := PI_RGT_0). lra. Qed.

Lemma degrees_radians (d : R) : degrees (radians d) = d.
Proof.
  unfold degrees, radians. field. assert (H := PI_RGT_0). lra.
Qed.

(** The apparent angle of a plan segment laid out at 25 degrees. *)
Lemma apparent_angle_plan (k dx dy : R) :
  k <> 0 ->
  dx = k * cos (radians 25) -> dy = k * sin (radians 25) ->
  apparent_angle dx dy = 25.
Proof.
  intros Hk -> ->.
  destruct radians_25_acute as [Hlo Hhi]. assert (Hpi := PI_RGT_0).
  assert (Hc : 0 < cos (radians 25)) by (apply cos_gt_0; lra).
  assert (Hs : 0 < sin (radians 25)) by (apply sin_gt_0; lra).
  unfold apparent_angle.
  destruct (Req_dec_T (k * cos (radians 25)) 0) as [H0 | _].
  - apply Rmult_integral in H0. destruct H0; [contradiction | lra].
  - rewrite !Rabs_mult, (Rabs_pos_eq (cos _)), (Rabs_pos_eq (sin _)) by lra.
    replace (Rabs k * sin (radians 25) / (Rabs k * cos (radians 25)))
      with (tan (radians 25)).
    + rewrite atan_tan by lra. apply degrees_radians.
    + unfold tan. field. split; [lra | now apply Rabs_no_R0].
Qed.

(** X7.  Unless the line is vertical (the cosine of its angle to the HP is
    zero), the apparent angle the info panel reports for the top view is
    25 degrees, whatever angles were requested: the plan direction is the
    fixed [plan_angle]. *)
Theorem draw_line_top_angle_25 (p : params) :
  cos (radians (py_or_num (get_default (angle_hp p) 30) 30)) <> 0 ->
  exists cmds : list cmd,
    draw_line p = Ok cmds
    /\ nth_error cmds 17
       = Some (Text (718, 116)
                 [Lit "Apparent angle in top view (with X) = "; Fix1 25;
                  Lit "°"]).
Proof.
  intros Hcos.
  assert (HL : py_or_num (get_default (true_length p) 80) 80 <> 0)
    by (apply py_or_num_never_zero; lra).
  unfold draw_line. cbn [apparent_length py_float bind].
  set (L := py_or_num (get_default (true_length p) 80) 80) in *.
  set (alpha := py_or_num (get_default (angle_hp p) 30) 30) in *.
  match goal with
  | |- context [fit_scale_for_box (py_max ?x ?xs * ?k) FRONT_BOX] =>
      set (m := py_max x xs);
      assert (Hm : 150 <= m) by (apply py_max_in; simpl; tauto);
      rewrite (fit_scale_front (m * k)) by lra
  end.
  cbn [bind]. eexists. split; [reflexivity |].
  cbn [nth_error app draw_info_panel info_lines].
  set (s := 374 / (m * (22 / 10))).
  assert (Hs : 0 < s) by (unfold s; apply Rdiv_lt_0_compat; lra).
  rewrite (apparent_angle_plan (L * cos (radians alpha) * s)
             (fst (transform_to_box_coords _ _ TOP_BOX s) - _) _).
  - do 3 f_equal.
    change (IZR (box_left INFO_BOX + 8)) with 718.
    change (IZR (box_top INFO_BOX + 8)) with 44.
    f_equal. lra.
  - apply Rmult_integral_contrapositive_currified; [| lra].
    apply Rmult_integral_contrapositive_currified; assumption.
  - rewrite !transform_top. cbn [fst snd]. ring.
  - rewrite !transform_top. cbn [fst snd]. ring.
Qed.

Lemma draw_line_top_angle_25_witness :
  exists cmds : list cmd,
    draw_line (set_angle_hp (Num 60) (set_angle_vp (Num 10) no_params))
    = Ok cmds
    /\ nth_error cmds 17
       = Some (Text (718, 116)
                 [Lit "Apparent angle in top view (with X) = "; Fix1 25;
                  Lit "°"]).
Proof.
  apply draw_line_top_angle_25.
  cbn [angle_hp set_angle_hp]. rewrite line_attr_nonzero by lra.
  rewrite radians_60, cos_PI3. lra.
Defined.

(** ** Regular polygons *)

(** X8.  A number of sides below 3 (zero and negative numbers included) is
    read as 3, and no number of sides makes the division by
    [2 sin (pi/n)] fail: the result always has [max n 3] vertices, the
    first of them straight above the centre at [(0, -R)]. *)
Theorem regular_polygon_vertices_clamp (n : Z) (side : R) :
  exists pts : list pt,
    regular_polygon_vertices n side = Ok pts
    /\ regular_polygon_vertices (Z.max n 3) side = Ok pts
    /\ List.length pts = Z.to_nat (Z.max n 3)
    /\ nth_error pts 0
       = Some (0, - (side / (2 * sin (PI / IZR (Z.max n 3))))).
Proof.
  pose proof (regular_polygon_vertices_eq n side) as E1.
  pose proof (regular_polygon_vertices_eq (Z.max n 3) side) as E2.
  cbv zeta in E1, E2. rewrite clamp_is_max in E1.
  rewrite clamp_is_max in E2.
  replace (Z.max (Z.max n 3) 3) with (Z.max n 3) in E2 by lia.
  set (m := Z.max n 3) in *.
  assert (Hm : (3 <= m)%Z) by (unfold m; lia).
  eexists. split; [exact E1 |]. split; [exact E2 |].
  split; [now rewrite length_map, range_length |].
  destruct (range_head m Hm) as [tl ->]. cbn [map nth_error]. unfold vertex.
  assert (Hr : 3 <= IZR m) by now apply IZR_le.
  replace (- PI / 2 + 2 * PI * 0 / IZR m) with (- (PI / 2)) by (field; lra).
  rewrite cos_neg, sin_neg, cos_PI2, sin_PI2. do 2 f_equal; ring.
Qed.

(** ** Laminae *)

(** The sides of a regular polygon placed in the top view. *)
Lemma placed_polygon_sides (n : Z) (s theta scale : R) (c : Z * Z) :
  (3 <= n)%Z -> 0 < s -> 0 <= scale ->
  let T := map (place_rotated theta c scale)
               (map (vertex n (s / (2 * sin (PI / IZR n)))) (range n)) in
  List.length T = Z.to_nat n
  /\ forall i, (i < List.length T)%nat ->
       distance (nth i T (0, 0)) (nth (S i mod List.length T) T (0, 0))
       = scale * s.
Proof.
  intros Hn Hs Hsc T.
  assert (Hlen : List.length T = Z.to_nat n)
    by (unfold T; now rewrite !length_map, range_length).
  split; [exact Hlen |]. intros i Hi. rewrite Hlen in *.
  set (r := s / (2 * sin (PI / IZR n))) in *.
  assert (Hnth : forall j, (j < Z.to_nat n)%nat ->
            nth j T (0, 0)
            = place_rotated theta c scale (vertex n r (Z.of_nat j))).
  { intros j Hj. unfold T.
    rewrite (nth_indep _ (0, 0)
               (place_rotated theta c scale (vertex n r 0%Z)))
      by (rewrite !length_map, range_length; exact Hj).
    rewrite map_nth, map_nth, range_nth by assumption. reflexivity. }
  rewrite !Hnth; [| apply Nat.mod_upper_bound; lia | assumption].
  rewrite placed_distance by assumption. f_equal.
  now apply vertex_step.
Qed.

(** X9.  The top view of a regular lamina shows its true shape: whatever the
    surface and edge angles, it is a closed outline of [n] vertices whose
    consecutive vertices are one side apart, at the scale of the
    drawing. *)
Theorem lamina_top_view_true_shape (p : params) (sh : string) (s sa ea : R) :
  shape p = Some sh ->
  In sh [ "triangle"; "pentagon"; "hexagon"; "polygon" ]%string ->
  lamina_size p = Some s -> 0 < s ->
  get_default (surface_angle p) 60 = Some sa ->
  get_default (edge_angle_to_VP p) 45 = Some ea ->
  exists (cmds : list cmd) (T : list pt),
    draw_lamina p = Ok cmds
    /\ outlines LINE_VP cmds = [loop T]
    /\ List.length T = Z.to_nat (regular_sides sh)
    /\ forall i, (i < List.length T)%nat ->
         distance (nth i T (0, 0)) (nth (S i mod List.length T) T (0, 0))
         = lamina_scale s * s.
Proof.
  intros Hsh Hin Hs Hpos Hsa Hea.
  assert (Hsc : 0 <= lamina_scale s) by (left; apply lamina_scale_pos).
  simpl in Hin. destruct Hin as [<- | [<- | [<- | [<- | []]]]].
  - pose proof (draw_lamina_triangle p s sa ea (or_intror Hsh) Hs Hsa Hea) as E.
    cbv zeta in E. do 2 eexists. split; [exact E |].
    split; [reflexivity |].
    apply (placed_polygon_sides 3 s (radians ea) (lamina_scale s) (350, 667)%Z);
      [lia | assumption | assumption].
  - pose proof (draw_lamina_polygon p "pentagon" s sa ea Hsh
                  (or_introl eq_refl) Hs Hsa Hea) as E.
    cbv zeta in E. do 2 eexists. split; [exact E |].
    split; [reflexivity |].
    apply (placed_polygon_sides 5 s (radians ea) (lamina_scale s) (350, 667)%Z);
      [lia | assumption | assumption].
  - pose proof (draw_lamina_polygon p "hexagon" s sa ea Hsh
                  (or_intror (or_introl eq_refl)) Hs Hsa Hea) as E.
    cbv zeta in E. do 2 eexists. split; [exact E |].
    split; [reflexivity |].
    apply (placed_polygon_sides 6 s (radians ea) (lamina_scale s) (350, 667)%Z);
      [lia | assumption | assumption].
  - pose proof (draw_lamina_polygon p "polygon" s sa ea Hsh
                  (or_intror (or_intror eq_refl)) Hs Hsa Hea) as E.
    cbv zeta in E. do 2 eexists. split; [exact E |].
    split; [reflexivity |].
    apply (placed_polygon_sides 6 s (radians ea) (lamina_scale s) (350, 667)%Z);
      [lia | assumption | assumption].
Qed.

Lemma lamina_top_view_true_shape_witness :
  exists (cmds : list cmd) (T : list pt),
    draw_lamina hexagon_40 = Ok cmds
    /\ outlines LINE_VP cmds = [loop T]
    /\ List.length T = 6%nat
    /\ forall i, (i < List.length T)%nat ->
         distance (nth i T (0, 0)) (nth (S i mod List.length T) T (0, 0))
         = lamina_scale 40 * 40.
Proof.
  apply (lamina_top_view_true_shape hexagon_40 "hexagon" 40 60 45).
  - reflexivity.
  - simpl. auto.
  - apply lamina_size_num; [reflexivity | lra].
  - lra.
  - reflexivity.
  - reflexivity.
Defined.




(** ** Solids *)

Lemma rectangles_app (w : Z) (a b : list cmd) :
  rectangles w (a ++ b) = rectangles w a ++ rectangles w b.
Proof.
  induction a as [| c a IH]; [reflexivity |].
  destruct c as [| | x0 y0 x1 y1 w' | |]; simpl; auto.
  destruct (w' =? w)%Z; simpl; now rewrite IH.
Qed.

Lemma info_lines_no_rectangle (w : Z) (x y : R) (ls : list text) :
  rectangles w (info_lines x y ls) = [].
Proof. revert y. induction ls as [| l ls IH]; intros y; simpl; auto. Qed.

(** The frame of the info panel is drawn with width 1, the outlines of
    the views with widths 4 and 3. *)
Lemma info_panel_no_rectangle (w : Z) (ls : list text) :
  w <> 1%Z -> rectangles w (draw_info_panel ls) = [].
Proof.
  intros Hw. unfold draw_info_panel. cbn [rectangles].
  destruct (Z.eqb_spec 1 w); [now destruct Hw |].
  apply info_lines_no_rectangle.
Qed.






(** X12.  Every cube of positive side is drawn as the same two squares of side
    374/3 pixels about the centres of the two boxes: the scale is
    derived from the side alone, so the size only shows in the info
    text. *)
Theorem cube_drawn_at_fixed_size (p : params) (a : R) (rest : list R) :
  solid_type p = Some "cube"%string ->
  sizes p = Some (a :: rest) -> 0 < a ->
  exists cmds : list cmd,
    draw_prism p = Ok cmds
    /\ rectangles LINE_HP cmds
       = [[ (350 - 187 / 3, 233 - 187 / 3); (350 + 187 / 3, 233 - 187 / 3);
            (350 + 187 / 3, 233 + 187 / 3); (350 - 187 / 3, 233 + 187 / 3) ]]
    /\ rectangles LINE_VP cmds
       = [[ (350 - 187 / 3, 667 - 187 / 3); (350 + 187 / 3, 667 - 187 / 3);
            (350 + 187 / 3, 667 + 187 / 3); (350 - 187 / 3, 667 + 187 / 3) ]]
    /\ outlines LINE_HP cmds = [] /\ outlines LINE_VP cmds = [].
Proof.
  intros Hty Hsz Ha. unfold draw_prism. rewrite Hty, Hsz.
  cbv beta iota zeta delta [String.eqb Ascii.eqb Bool.eqb].
  rewrite fit_scale_front by lra. cbn [bind].
  replace (a * (374 / (a * 3)) / 2) with (187 / 3) by (field; lra).
  rewrite !draw_rectangle_ok by (apply centred_le; lra). cbn [bind].
  eexists. split; [reflexivity |].
  rewrite !rectangles_app, !outlines_app.
  rewrite !info_panel_no_rectangle by (unfold LINE_HP, LINE_VP; lia).
  rewrite !(proj2 (info_panel_no_line _)).
  repeat split.
Qed.

Lemma cube_drawn_at_fixed_size_witness :
  exists cmds : list cmd,
    draw_prism cube_7 = Ok cmds
    /\ rectangles LINE_HP cmds
       = [[ (350 - 187 / 3, 233 - 187 / 3); (350 + 187 / 3, 233 - 187 / 3);
            (350 + 187 / 3, 233 + 187 / 3); (350 - 187 / 3, 233 + 187 / 3) ]]
    /\ rectangles LINE_VP cmds
       = [[ (350 - 187 / 3, 667 - 187 / 3); (350 + 187 / 3, 667 - 187 / 3);
            (350 + 187 / 3, 667 + 187 / 3); (350 - 187 / 3, 667 + 187 / 3) ]]
    /\ outlines LINE_HP cmds = [] /\ outlines LINE_VP cmds = [].
Proof.
  apply (cube_drawn_at_fixed_size cube_7 7 []); [reflexivity | reflexivity | lra].
Defined.

(** A cylinder lower than a third of its diameter has the caps of its
    elevation overlap: the rectangle between them is a reversed box. *)
Lemma squat_cylinder_is_rejected (p : params) (diam h : R) (rest : list R) :
  solid_type p = Some "cylinder"%string ->
  sizes p = Some (diam :: h :: rest) ->
  0 < diam -> h < diam / 3 ->
  draw_prism p = Raise ValueError.
Proof.
  intros Hty Hsz Hd Hh. unfold draw_prism. rewrite Hty, Hsz.
  cbv beta iota zeta delta [String.eqb Ascii.eqb Bool.eqb].
  assert (Hmax : diam <= py_max diam [h]) by apply py_max_lower.
  rewrite fit_scale_front by lra. cbn [bind].
  set (scale := 374 / (py_max diam [h] * (5 / 2))).
  assert (Hs : 0 < scale) by (apply Rdiv_lt_0_compat; lra).
  rewrite draw_ellipse_ok by nra. cbn [bind].
  rewrite draw_rectangle_reversed; [reflexivity |].
  right. nra.
Qed.

(** ** The page *)



(** X14.  Once a type is forced, what the parser detected plays no part: the
    forced Point, Line, Lamina and Solid go to [draw_point], [draw_line],
    [draw_lamina] and [draw_prism] whatever the parsed type.  The forced
    "Development" is lower-cased to a type no branch tests for, so it
    always ends in the fallback message and never in a drawing. *)
Theorem generate_forced (parsed_type : option string) (p : params) :
  generate parsed_type ForceLine p
  = (drawn <- draw_line p ;; Ok (draw_xy_line ++ drawn))
  /\ generate parsed_type ForceLamina p
     = (drawn <- draw_lamina p ;; Ok (draw_xy_line ++ drawn))
  /\ generate parsed_type ForceSolid p
     = (drawn <- draw_prism p ;; Ok (draw_xy_line ++ drawn))
  /\ generate parsed_type ForcePoint p = generate None ForcePoint p
  /\ generate parsed_type ForceDevelopment p
     = Ok (draw_xy_line ++ draw_info_panel fallback_message).
Proof. repeat split. Qed.



(** ** The font cache *)

Lemma load_fonts_cached (ok : Z -> bool) (sizes : list Z) (f : font) :
  load_fonts ok sizes (Some f) = (repeat f (List.length sizes), Some f).
Proof.
  induction sizes as [| sz rest IH]; [reflexivity |].
  cbn [load_fonts load_font List.length repeat]. now rewrite IH.
Qed.

(** X16.  The size asked for only matters on the first call: starting from an
    empty cache, every later [load_font], whatever its size, returns the
    font loaded by the first one (the 18 point font of the XY captions
    when [draw_xy_line] runs first, or the default font if that load
    failed), and the cache keeps it. *)
Theorem load_font_first_size_wins (ok : Z -> bool) (sz : Z) (rest : list Z) :
  let first := if ok sz then TrueType sz else DefaultFont in
  load_fonts ok (sz :: rest) None
  = (repeat first (S (List.length rest)), Some first).
Proof.
  cbv zeta. cbn [load_fonts load_font].
  rewrite load_fonts_cached. reflexivity.
Qed.

(** ** Apparent lengths *)

(** X17.  An apparent length is never negative and never longer than the true
    length, whatever the sign of the length and the angle. *)
Theorem apparent_length_bounds (L theta : R) :
  exists a : R,
    apparent_length (Some L) (Some theta) = Some a
    /\ 0 <= a <= Rabs L.
Proof.
  eexists. split; [reflexivity |].
  rewrite Rabs_mult. assert (Hc := COS_bound (radians theta)).
  assert (HL := Rabs_pos L).
  assert (Hcos : Rabs (cos (radians theta)) <= 1) by (apply Rabs_le; lra).
  assert (Hc0 := Rabs_pos (cos (radians theta))).
  split; nra.
Qed.

(** X18.  At every angle whose cosine is not zero the round trip through
    [apparent_length] and [true_from_apparent] returns a number, and that
    number has the magnitude of the length it started from, for lengths
    of either sign (its sign is that of the cosine). *)
Theorem roundtrip_magnitude (L theta : R) :
  cos (radians theta) <> 0 ->
  exists r : R,
    true_from_apparent (apparent_length (Some L) (Some theta)) (Some theta)
    = Ok (Some r)
    /\ Rabs r = Rabs L
    /\ r * cos (radians theta) = Rabs (L * cos (radians theta)).
Proof.
  intros Hc. cbn [apparent_length true_from_apparent].
  destruct (Req_dec_T (cos (radians theta)) 0); [contradiction |].
  rewrite py_div_nonzero by assumption. cbn [bind].
  eexists. split; [reflexivity |]. split.
  - unfold Rdiv. rewrite Rabs_mult, Rabs_Rabsolu, Rabs_mult, Rabs_inv.
    field. now apply Rabs_no_R0.
  - field. assumption.
Qed.

Lemma roundtrip_magnitude_witness :
  exists r : R,
    true_from_apparent (apparent_length (Some (- 80)) (Some 180)) (Some 180)
    = Ok (Some r)
    /\ Rabs r = Rabs (- 80)
    /\ r * cos (radians 180) = Rabs (- 80 * cos (radians 180)).
Proof.
  apply (roundtrip_magnitude (- 80) 180).
  rewrite radians_180, cos_PI. lra.
Defined.

(** ** The prototype engine of [cadtest.py] *)

Lemma radians_plus (a b : R) : radians (a + b) = radians a + radians b.
Proof. unfold radians. ring. Qed.

Lemma radians_0 : radians 0 = 0.
Proof. unfold radians. ring. Qed.

(** X19.  Rotations about the vertical axis compose by adding their angles, and
    turning back by the same angle is the identity; a rotation keeps the
    height of a point and its distance to the axis. *)
Theorem rotate_point_compose (p : Cadtest.point3) (a b : R) :
  Cadtest.rotate_point (Cadtest.rotate_point p a) b
  = Cadtest.rotate_point p (a + b)
  /\ Cadtest.rotate_point (Cadtest.rotate_point p a) (- a) = p
  /\ snd (Cadtest.rotate_point p a) = snd p
  /\ fst (fst (Cadtest.rotate_point p a)) * fst (fst (Cadtest.rotate_point p a))
     + snd (fst (Cadtest.rotate_point p a)) * snd (fst (Cadtest.rotate_point p a))
     = fst (fst p) * fst (fst p) + snd (fst p) * snd (fst p).
Proof.
  destruct p as [[x y] z]. unfold Cadtest.rotate_point. cbn [fst snd].
  assert (H := sin2_cos2 (radians a)). unfold Rsqr in H.
  split; [| split; [| split]].
  - rewrite radians_plus, cos_plus, sin_plus. do 2 f_equal; ring.
  - replace (radians (- a)) with (- radians a) by (unfold radians; ring).
    rewrite cos_neg, sin_neg. set (c := cos (radians a)) in *.
    set (sn := sin (radians a)) in *. do 2 f_equal.
    + transitivity (x * (sn * sn + c * c)); [ring | rewrite H; ring].
    + transitivity (y * (sn * sn + c * c)); [ring | rewrite H; ring].
  - reflexivity.
  - set (c := cos (radians a)) in *. set (sn := sin (radians a)) in *.
    transitivity ((x * x + y * y) * (sn * sn + c * c));
      [ring | rewrite H; ring].
Qed.

Lemma mapM_all_ok {A B : Type} (f : A -> result B) (g : A -> B) (l : list A) :
  (forall a, In a l -> f a = Ok (g a)) -> mapM f l = Ok (map g l).
Proof.
  induction l as [| a l IH]; intros H; [reflexivity |].
  cbn [mapM map]. rewrite (H a (or_introl eq_refl)). cbn [bind].
  rewrite IH by (intros a' Ha'; apply H; now right). reflexivity.
Qed.

Lemma range_empty (n : Z) : (n <= 0)%Z -> range n = [].
Proof.
  intros Hn. unfold range. replace (Z.to_nat n) with 0%nat by lia. reflexivity.
Qed.

(** X20.  [model_plane] never divides by zero, not even for [sides = 0]: the
    division is inside a loop that then does not run.  It returns
    [sides] points (none for a number that is not positive), all in the
    plane [z = 0] and on the circle of the given radius. *)
Theorem model_plane_on_circle (sides : Z) (radius : R) :
  exists pts : list Cadtest.point3,
    Cadtest.model_plane sides radius = Ok pts
    /\ List.length pts = Z.to_nat sides
    /\ Forall (fun q : Cadtest.point3 =>
                 snd q = 0
                 /\ fst (fst q) * fst (fst q) + snd (fst q) * snd (fst q)
                    = radius * radius)
              pts.
Proof.
  unfold Cadtest.model_plane.
  destruct (Z_le_gt_dec sides 0) as [Hle | Hgt].
  - rewrite range_empty by assumption. exists []. cbn [mapM].
    repeat split; [cbn; lia | constructor].
  - assert (Hs : IZR sides <> 0) by (apply not_0_IZR; lia).
    eexists. split.
    + apply (mapM_all_ok _
               (fun i : Z =>
                  (radius * cos (radians (IZR i * (360 / IZR sides))),
                   radius * sin (radians (IZR i * (360 / IZR sides))), 0))).
      intros i _. now rewrite py_div_nonzero.
    + split; [now rewrite length_map, range_length |].
      apply Forall_forall. intros q Hq. apply in_map_iff in Hq.
      destruct Hq as (i & <- & _). cbn [fst snd]. split; [reflexivity |].
      assert (H := sin2_cos2 (radians (IZR i * (360 / IZR sides)))).
      unfold Rsqr in H. nra.
Qed.

Lemma index_nat {A : Type} (l : list A) (i : nat) (d : A) :
  (i < List.length l)%nat -> index l (Z.of_nat i) = Ok (nth i l d).
Proof.
  intros Hi. unfold index. cbv zeta.
  assert (E : (Z.of_nat i <? 0)%Z = false) by (apply Z.ltb_ge; lia).
  rewrite !E, Nat2Z.id, (nth_error_nth' l d Hi). reflexivity.
Qed.

Lemma links_by_index (pts : list pt) (d : pt) :
  Cadtest.links pts
  = map (fun i : nat => Line [nth i pts d; nth (S i) pts d] 3)
        (seq 0 (List.length pts - 1)).
Proof.
  induction pts as [| a [| b rest] IH]; [reflexivity | reflexivity |].
  change (Cadtest.links (a :: b :: rest))
    with (Line [a; b] 3 :: Cadtest.links (b :: rest)).
  rewrite IH.
  replace (List.length (a :: b :: rest) - 1)%nat
    with (S (List.length (b :: rest) - 1)) by (cbn [List.length]; lia).
  cbn [seq map nth]. f_equal.
  rewrite <- seq_shift, map_map. reflexivity.
Qed.

(** The loop over indices never reads past the end of the list: it draws
    the open chain through the points. *)
Lemma chain_links (pts : list pt) :
  Cadtest.chain pts = Ok (Cadtest.links pts).
Proof.
  unfold Cadtest.chain. rewrite (links_by_index pts (0, 0)).
  unfold range. rewrite <- map_map.
  replace (Z.to_nat (Z.of_nat (List.length pts) - 1))
    with (List.length pts - 1)%nat by lia.
  set (n := (List.length pts - 1)%nat).
  assert (Hn : forall i, In i (seq 0 n) -> (S i < List.length pts)%nat).
  { intros i Hi. apply in_seq in Hi. unfold n in Hi. lia. }
  induction (seq 0 n) as [| i l IH]; [reflexivity |].
  cbn [map mapM].
  assert (Hi := Hn i (or_introl eq_refl)).
  rewrite (index_nat pts i (0, 0)) by lia. cbn [bind].
  replace (Z.of_nat i + 1)%Z with (Z.of_nat (S i)) by lia.
  rewrite (index_nat pts (S i) (0, 0)) by lia. cbn [bind].
  rewrite IH by (intros j Hj; apply Hn; now right). reflexivity.
Qed.

(** X21.  [render_projection] never fails, on no list of points: it draws each
    view as the open chain through the images of the points in the order
    given (so [n] points give [n - 1] segments per view and a polygon is
    not closed), then the two captions.  A point [(x, y, z)] is imaged at
    [(x + 150, 300 - z)] in the front view and at [(x + 450, 300 + y)] in
    the top view: further in front of the VP is lower on the canvas. *)
Theorem render_projection_chains (obj_points : list Cadtest.point3) :
  Cadtest.render_projection obj_points
  = Ok (Cadtest.links (map Cadtest.front_pixel obj_points)
        ++ Cadtest.links (map Cadtest.top_pixel obj_points)
        ++ [ Text (140, 350) [Lit "Front View"];
             Text (440, 350) [Lit "Top View"] ])
  /\ List.length (Cadtest.links (map Cadtest.front_pixel obj_points))
     = (List.length obj_points - 1)%nat
  /\ List.length (Cadtest.links (map Cadtest.top_pixel obj_points))
     = (List.length obj_points - 1)%nat
  /\ forall x y z : R,
       Cadtest.front_pixel (x, y, z) = (x + 150, 300 - z)
       /\ Cadtest.top_pixel (x, y, z) = (x + 450, 300 + y).
Proof.
  split; [| split; [| split]].
  - unfold Cadtest.render_projection. rewrite !chain_links. reflexivity.
  - rewrite (links_by_index _ (0, 0)), length_map, length_seq, length_map.
    reflexivity.
  - rewrite (links_by_index _ (0, 0)), length_map, length_seq, length_map.
    reflexivity.
  - intros x y z. split; [reflexivity |].
    unfold Cadtest.top_pixel, Cadtest.project_first_angle. cbn [fst snd].
    f_equal. ring.
Qed.

(** ** The script and DXF writer of [cadtest3.py] *)

Lemma mm_some (v : R) : Cadtest3.mm (Some v) = Ok v.
Proof.
  unfold Cadtest3.mm, Cadtest3.SCALE. cbn [py_float bind]. f_equal. ring.
Qed.

Lemma mm_none : Cadtest3.mm None = Raise TypeError.
Proof. reflexivity. Qed.

Ltac proj_cases :=
  repeat match goal with
    | |- context [Cadtest3.mm (get_default ?a ?d)] =>
        destruct (get_default a d) as [? |];
        [rewrite !mm_some | rewrite !mm_none]; cbn [bind]
    | |- context [py_float (get_default ?a ?d)] =>
        destruct (get_default a d) as [? |]; cbn [py_float bind]
    end.

(** X22.  Whatever a [proj_*] routine returns, its list of DXF primitives is,
    entry for entry, its list of script lines: the .scr and the .dxf file
    describe the same drawing. *)
Theorem script_and_dxf_in_sync (p : Cadtest3.params) (d : Cadtest3.drawing) :
  Cadtest3.proj_point p = Ok d \/ Cadtest3.proj_line p = Ok d
  \/ Cadtest3.proj_plane_lamina p = Ok d \/ Cadtest3.proj_solid p = Ok d ->
  Cadtest3.in_sync d.
Proof.
  intros [H | [H | [H | H]]]; revert H.
  - unfold Cadtest3.proj_point. proj_cases; intros H; try discriminate H.
    injection H as <-. reflexivity.
  - unfold Cadtest3.proj_line. proj_cases; intros H; try discriminate H.
    injection H as <-. reflexivity.
  - unfold Cadtest3.proj_plane_lamina. proj_cases; try (intros H; discriminate H).
    destruct (_ =? "triangle")%string; [| destruct (_ =? "circle")%string];
      intros H; injection H as <-; reflexivity.
  - unfold Cadtest3.proj_solid. proj_cases; try (intros H; discriminate H).
    destruct (_ =? "cylinder")%string;
      intros H; injection H as <-; reflexivity.
Qed.

Lemma script_and_dxf_in_sync_witness :
  exists d : Cadtest3.drawing,
    Cadtest3.proj_solid Cadtest3.no_params = Ok d /\ Cadtest3.in_sync d.
Proof.
  assert (E : exists d, Cadtest3.proj_solid Cadtest3.no_params = Ok d).
  { unfold Cadtest3.proj_solid. cbn [Cadtest3.size Cadtest3.height
      Cadtest3.no_params get_default]. rewrite !mm_some. cbn [bind].
    eexists. reflexivity. }
  destruct E as [d E]. exists d. split; [exact E |].
  apply (script_and_dxf_in_sync Cadtest3.no_params d). right. right. right.
  exact E.
Defined.

(** X23.  A line is drawn horizontal in both views and centred on the same
    vertical: full length in the top view, and that length times the
    cosine of the inclination in the front view. *)
Theorem proj_line_foreshortens (p : Cadtest3.params) (L th : R) :
  get_default (Cadtest3.length p) 80 = Some L ->
  get_default (Cadtest3.theta p) 30 = Some th ->
  exists (prim : list Cadtest3.primitive) (x0 x1 f0 f1 : R),
    Cadtest3.proj_line p
    = Ok ([ Cadtest3.ScrLine x0 80 x1 80; Cadtest3.ScrLine f0 200 f1 200 ],
          prim)
    /\ x1 - x0 = L
    /\ f1 - f0 = L * cos (radians th)
    /\ x0 + x1 = 2 * 200 /\ f0 + f1 = 2 * 200.
Proof.
  intros HL Hth. unfold Cadtest3.proj_line. rewrite HL, Hth, mm_some.
  cbn [py_float bind]. do 5 eexists. split; [reflexivity |].
  change (IZR (fst Cadtest3.tv_origin)) with 200.
  change (IZR (fst Cadtest3.fv_origin)) with 200.
  repeat split; lra.
Qed.

Lemma proj_line_foreshortens_witness :
  exists (prim : list Cadtest3.primitive) (x0 x1 f0 f1 : R),
    Cadtest3.proj_line Cadtest3.no_params
    = Ok ([ Cadtest3.ScrLine x0 80 x1 80; Cadtest3.ScrLine f0 200 f1 200 ],
          prim)
    /\ x1 - x0 = 80
    /\ f1 - f0 = 80 * cos (radians 30)
    /\ x0 + x1 = 2 * 200 /\ f0 + f1 = 2 * 200.
Proof.
  apply (proj_line_foreshortens Cadtest3.no_params 80 30); reflexivity.
Defined.

(** X24.  The two crosses of a point share their abscissa, [200 + infront]; the
    front one is [above] over the row 200, while the top one stays on the
    row 80 whatever the two distances: the distance in front of the VP is
    not measured off the XY line. *)
Theorem proj_point_marks (p : Cadtest3.params) (y z : R) :
  get_default (Cadtest3.infront p) 0 = Some y ->
  get_default (Cadtest3.above p) 0 = Some z ->
  exists prim : list Cadtest3.primitive,
    Cadtest3.proj_point p
    = Ok ([ Cadtest3.ScrLine (200 + y - 2) (200 - z) (200 + y + 2) (200 - z);
            Cadtest3.ScrLine (200 + y) (200 - z - 2) (200 + y) (200 - z + 2);
            Cadtest3.ScrLine (200 + y - 2) 80 (200 + y + 2) 80;
            Cadtest3.ScrLine (200 + y) (80 - 2) (200 + y) (80 + 2) ],
          prim).
Proof.
  intros Hy Hz. unfold Cadtest3.proj_point. rewrite Hy, Hz, !mm_some.
  cbn [bind]. eexists. reflexivity.
Qed.

Lemma proj_point_marks_witness :
  exists prim : list Cadtest3.primitive,
    Cadtest3.proj_point Cadtest3.no_params
    = Ok ([ Cadtest3.ScrLine (200 + 0 - 2) (200 - 0) (200 + 0 + 2) (200 - 0);
            Cadtest3.ScrLine (200 + 0) (200 - 0 - 2) (200 + 0) (200 - 0 + 2);
            Cadtest3.ScrLine (200 + 0 - 2) 80 (200 + 0 + 2) 80;
            Cadtest3.ScrLine (200 + 0) (80 - 2) (200 + 0) (80 + 2) ],
          prim).
Proof.
  apply (proj_point_marks Cadtest3.no_params 0 0); reflexivity.
Defined.

(** X25.  The angle of the resting edge does not enter the drawing of a lamina,
    and a circular lamina is drawn as the same circle in both views
    whatever its inclination: its front view is not foreshortened. *)
Theorem proj_plane_lamina_ignores (p : Cadtest3.params) (a b : R) :
  Cadtest3.proj_plane_lamina (Cadtest3.set_resting_edge (Num a) p)
  = Cadtest3.proj_plane_lamina (Cadtest3.set_resting_edge (Num b) p)
  /\ (Cadtest3.shape p = Some "circle"%string ->
      forall s : R,
        get_default (Cadtest3.size p) 30 = Some s ->
        Cadtest3.resting_edge p <> PyNone ->
        Cadtest3.proj_plane_lamina (Cadtest3.set_incline (Num a) p)
        = Ok ([ Cadtest3.ScrCircle 200 80 (s / 2);
                Cadtest3.ScrCircle 200 200 (s / 2) ],
              [ Cadtest3.PrimCircle 200 80 (s / 2);
                Cadtest3.PrimCircle 200 200 (s / 2) ])).
Proof.
  split.
  - unfold Cadtest3.proj_plane_lamina.
    cbn [Cadtest3.shape Cadtest3.size Cadtest3.incline Cadtest3.resting_edge
         Cadtest3.set_resting_edge get_default py_float].
    proj_cases; reflexivity.
  - intros Hsh s Hs Hre. unfold Cadtest3.proj_plane_lamina.
    cbn [Cadtest3.shape Cadtest3.size Cadtest3.incline Cadtest3.resting_edge
         Cadtest3.set_incline get_default py_float].
    rewrite Hsh, Hs, mm_some. cbn [bind].
    destruct (get_default (Cadtest3.resting_edge p) 45) as [re |] eqn:Ere;
      [| now apply get_default_none in Ere].
    reflexivity.
Qed.

Lemma proj_plane_lamina_ignores_witness :
  Cadtest3.proj_plane_lamina
    (Cadtest3.set_incline (Num 75)
       (Cadtest3.mkParams Absent Absent Absent Absent (Some "circle"%string)
          (Num 40) Absent Absent Absent))
  = Ok ([ Cadtest3.ScrCircle 200 80 (40 / 2);
          Cadtest3.ScrCircle 200 200 (40 / 2) ],
        [ Cadtest3.PrimCircle 200 80 (40 / 2);
          Cadtest3.PrimCircle 200 200 (40 / 2) ]).
Proof.
  apply (proj2 (proj_plane_lamina_ignores
                  (Cadtest3.mkParams Absent Absent Absent Absent
                     (Some "circle"%string) (Num 40) Absent Absent Absent)
                  75 0));
    [reflexivity | reflexivity | discriminate].
Defined.
